(** * BizPilot: the retrieval, classification and message-generation core

    A shallow embedding of [rag_pipeline.py] and [message_generator.py]
    (with the rows of [models.py] they touch and the start-up hook of
    [api.py]), and the properties of the specification checked against it.

    Conventions of the embedding.
    - A Python [str] is a [string]: a sequence of 8-bit characters.  Text is
      taken to be ASCII; [lower] folds [A]-[Z] and leaves every other
      character alone.
    - A Python [float] is a binary64 [float] of the kernel, with its own
      arithmetic and comparisons.
    - A [dict] whose keys are fixed by the code is a record of optional
      fields ([None]: the key is missing); a [dict] with free keys is an
      association list.
    - The collaborators that live outside the repository (the embedding
      models, the vector index, the generative backend, the clock, the
      relational session) are parameters or explicit state. *)

From Stdlib Require Import String Ascii List ZArith Lia Bool DecimalString DecimalZ Floats.
Import ListNotations.

Set Warnings "-inexact-float".

Open Scope list_scope.
Open Scope string_scope.

(** ** Python primitives *)

Module Py.

(** Values that the vector index keeps in a metadata mapping. *)
Inductive value : Type :=
| VStr (s : string)
| VInt (z : Z).

Definition str_of_int (z : Z) : string := NilZero.string_of_int (Z.to_int z).

(** [str(v)], as an f-string field renders it. *)
Definition str (v : value) : string :=
  match v with
  | VStr s => s
  | VInt z => str_of_int z
  end.

Definition value_eqb (v w : value) : bool :=
  match v, w with
  | VStr a, VStr b => String.eqb a b
  | VInt a, VInt b => Z.eqb a b
  | _, _ => false
  end.

(** A mapping with free keys; the first binding of a key is the live one. *)
Definition dict : Type := list (string * value).

(** [d.get(k)] on a mapping written as the list of its items. *)
Fixpoint lookup {A : Type} (d : list (string * A)) (k : string) : option A :=
  match d with
  | [] => None
  | (k', v) :: d' => if String.eqb k' k then Some v else lookup d' k
  end.

(** [d.get(k, default)] *)
Definition lookup_default {A : Type} (d : list (string * A)) (k : string) (default : A) : A :=
  match lookup d k with
  | Some v => v
  | None => default
  end.

Definition get (d : dict) (k : string) : option value := lookup d k.

Definition get_default (d : dict) (k : string) (default : value) : value :=
  lookup_default d k default.

(** Truth value of an optional [str] field: missing and empty are false. *)
Definition truthy (o : option string) : bool :=
  match o with
  | Some s => negb (String.eqb s "")
  | None => false
  end.

(** [d.get(k, default)] on a record field. *)
Definition field_or (o : option string) (default : string) : string :=
  match o with
  | Some s => s
  | None => default
  end.

(** [str.lower] *)
Definition is_upper (c : ascii) : bool :=
  (65 <=? nat_of_ascii c)%nat && (nat_of_ascii c <=? 90)%nat.

Definition lower_char (c : ascii) : ascii :=
  if is_upper c then ascii_of_nat (nat_of_ascii c + 32) else c.

Fixpoint lower (s : string) : string :=
  match s with
  | EmptyString => EmptyString
  | String c s' => String (lower_char c) (lower s')
  end.

(** [sub in s] *)
Fixpoint contains (sub s : string) : bool :=
  String.prefix sub s ||
  match s with
  | EmptyString => false
  | String _ s' => contains sub s'
  end.

(** [sep.join(parts)] *)
Fixpoint join (sep : string) (parts : list string) : string :=
  match parts with
  | [] => ""
  | [p] => p
  | p :: rest => p ++ sep ++ join sep rest
  end.

(** [s[:n]] *)
Fixpoint take (n : nat) (s : string) : string :=
  match n, s with
  | O, _ => ""
  | _, EmptyString => ""
  | S n', String c s' => String c (take n' s')
  end.

(** [repr] of a [str] without quotes, backslashes or control characters
    (every phrase constant of the classifier is one). *)
Definition repr_plain (s : string) : string := "'" ++ s ++ "'".

(** [str] of a list of such strings, as an f-string field renders it. *)
Definition repr_list (l : list string) : string :=
  "[" ++ join ", " (map repr_plain l) ++ "]".

(** [l.append(x)] *)
Definition append {A : Type} (l : list A) (x : A) : list A := (l ++ [x])%list.

(** [any(p(x) for x in l)] *)
Definition any {A : Type} (p : A -> bool) (l : list A) : bool := existsb p l.

(** [float(z)], for an integer of at most 63 bits. *)
Definition float_of_Z (z : Z) : float :=
  match z with
  | Z0 => 0%float
  | Zpos _ => PrimFloat.of_uint63 (Uint63.of_Z z)
  | Zneg q => (- PrimFloat.of_uint63 (Uint63.of_Z (Zpos q)))%float
  end.

(** [int(x)]: truncation toward zero; infinities and NaN raise. *)
Definition int_of_float (x : float) : option Z :=
  match Prim2SF x with
  | S754_zero _ => Some 0%Z
  | S754_finite s m e =>
      let a := if (0 <=? e)%Z then (Zpos m * 2 ^ e)%Z else (Zpos m / 2 ^ (- e))%Z in
      Some (if s then (- a)%Z else a)
  | _ => None
  end.

(** [min(a, b)]: the first argument unless the second is smaller. *)
Definition min (a b : float) : float := if (b <? a)%float then b else a.

(** [sum(xs)] of floats, from the integer [0]. *)
Definition sum (xs : list float) : float :=
  fold_left (fun acc x => (acc + x)%float) xs 0%float.

(** [round(x, 2)]: the decimal with two places nearest to the exact value
    of [x], ties to the even one, read back as the nearest float; the
    sign of [x] is kept, and zeros, infinities and NaN round to
    themselves. *)
Definition round2 (x : float) : float :=
  match Prim2SF x with
  | S754_finite s m e =>
      if (0 <=? e)%Z then x
      else
        let d := (2 ^ (- e))%Z in
        let t := (Zpos m * 100)%Z in
        let q := (t / d)%Z in
        let r := (t mod d)%Z in
        let n := if (2 * r <? d)%Z then q
                 else if (d <? 2 * r)%Z then (q + 1)%Z
                 else if Z.even q then q else (q + 1)%Z in
        if (2 ^ 53 <=? n)%Z then x
        else
          let y := (float_of_Z n / 100)%float in
          if s then (- y)%float else y
  | _ => x
  end.

(** Whitespace of [str.strip]: tab to carriage return, the four separators, space. *)
Definition is_space (c : ascii) : bool :=
  let n := nat_of_ascii c in
  ((9 <=? n)%nat && (n <=? 13)%nat) || ((28 <=? n)%nat && (n <=? 32)%nat).

Fixpoint lstrip (s : string) : string :=
  match s with
  | EmptyString => EmptyString
  | String c s' => if is_space c then lstrip s' else s
  end.

Fixpoint rstrip (s : string) : string :=
  match s with
  | EmptyString => EmptyString
  | String c s' =>
      match rstrip s' with
      | EmptyString => if is_space c then EmptyString else String c EmptyString
      | r => String c r
      end
  end.

(** [s.strip()] *)
Definition strip (s : string) : string := rstrip (lstrip s).

(** [s.split('\n')] *)
Fixpoint split_lines (s : string) : list string :=
  match s with
  | EmptyString => [EmptyString]
  | String c s' =>
      match split_lines s' with
      | l :: ls => if Ascii.eqb c "010" then EmptyString :: l :: ls else String c l :: ls
      | [] => [String c EmptyString]
      end
  end.

(** [s.replace(old, '')] for a non-empty [old]: every occurrence, found
    from the left and never overlapping, is dropped.  [skip] counts the
    characters of the current occurrence still to drop. *)
Fixpoint remove_from (old : string) (skip : nat) (s : string) : string :=
  match s with
  | EmptyString => EmptyString
  | String c s' =>
      match skip with
      | S k => remove_from old k s'
      | O =>
          if String.prefix old s then remove_from old (String.length old - 1) s'
          else String c (remove_from old 0 s')
      end
  end.

Definition remove (old s : string) : string := remove_from old 0 s.

(** [s.startswith(p)] *)
Definition startswith (s p : string) : bool := String.prefix p s.

End Py.

(** ** rag_pipeline.py: retrieved contexts and the rule classifier *)

Record RetrievedContext : Type := mkContext {
  doc_id : string;
  content : string;
  score : float;
  metadata : Py.dict
}.

(** The [source_metadata] mapping of a lead, with the keys the core reads. *)
Record SourceMeta : Type := mkSourceMeta {
  message : option string;
  subject : option string
}.

(** [lead_data]: every key may be missing; present keys hold a [str]
    (and [source_metadata] a mapping). *)
Record LeadData : Type := mkLead {
  name : option string;
  company : option string;
  email : option string;
  source_metadata : option SourceMeta
}.

(** [lead_data.get('source_metadata', {})] *)
Definition source_meta_of (lead_data : LeadData) : SourceMeta :=
  match source_metadata lead_data with
  | Some m => m
  | None => mkSourceMeta None None
  end.

Definition hot_signals : list string :=
  ["urgent"; "asap"; "immediately"; "buy now"; "purchase";
   "pricing"; "demo"; "trial"; "start today"].

Definition warm_signals : list string :=
  ["interested"; "learn more"; "information"; "how does";
   "tell me about"; "curious"; "exploring"].

(** [[s for s in signals if s in query_lower]] *)
Definition matched (signals : list string) (query_lower : string) : list string :=
  filter (fun s => Py.contains s query_lower) signals.

(** [RAGPipeline._classify_with_rules] *)
Definition _classify_with_rules (query : string) (contexts : list RetrievedContext)
    (source_meta : SourceMeta) : string * float * string :=
  let query_lower := Py.lower query in
  if Py.any (fun signal => Py.contains signal query_lower) hot_signals then
    ("hot", 0.85%float,
     "High-intent keywords detected: " ++ Py.repr_list (matched hot_signals query_lower))
  else if Py.any (fun signal => Py.contains signal query_lower) warm_signals then
    ("warm", 0.70%float,
     "Interest indicators found: " ++ Py.repr_list (matched warm_signals query_lower))
  else if (String.length query <? 20)%nat then
    ("cold", 0.60%float, "Brief inquiry, needs more context")
  else
    match contexts with
    | c0 :: _ =>
        if (0.7 <? score c0)%float then
          ("warm", 0.65%float,
           "Relevant to our knowledge base: " ++
           Py.str (Py.get_default (metadata c0) "title" (Py.VStr "N/A")))
        else ("cold", 0.50%float, "Standard inquiry, no strong signals")
    | [] => ("cold", 0.50%float, "Standard inquiry, no strong signals")
    end.

(** ** models.py: the rows the core reads and writes *)

Module Models.

(** A row of [knowledge_base]. *)
Record KnowledgeBase : Type := mkKnowledgeBase {
  id : Z;
  title : string;
  content : string;
  doc_type : string;
  source_url : option string;
  embedding_id : option string;
  priority : Z;
  active : bool
}.

(** A row of [model_logs]; [input_data] is [{'lead': ..., 'intent': ...}]
    and [output_data] is [{'subject': ..., 'body': ...}]. *)
Record ModelLog : Type := mkModelLog {
  model_version : string;
  operation : string;
  input_data : LeadData * string;
  output_data : string * string;
  latency_ms : Z;
  tokens_used : Z;
  cost_usd : float;
  confidence_score : float
}.

Definition set_embedding_id (d : KnowledgeBase) (e : string) : KnowledgeBase :=
  mkKnowledgeBase (id d) (title d) (content d) (doc_type d) (source_url d)
                  (Some e) (priority d) (active d).

Definition set_active (d : KnowledgeBase) (b : bool) : KnowledgeBase :=
  mkKnowledgeBase (id d) (title d) (content d) (doc_type d) (source_url d)
                  (embedding_id d) (priority d) b.

End Models.

(** ** Exceptions and the state the core runs in *)

Inductive exn : Type :=
| ConfigurationError        (* named by the specification only *)
| InvalidDimension          (* the vector index: length differs from the collection's *)
| IndexError                (* [l[0]] on an empty list *)
| AttributeError            (* a field the object does not have *)
| OverflowError             (* [int] of an infinity or a NaN *)
| APIError (reason : string)   (* the generative backend: timeout, status, connection *)
| EmbeddingError (reason : string)   (* an embedding library: unknown model, no key, network *)
| DatabaseError.            (* the relational session *)

Inductive result (A : Type) : Type :=
| Return (a : A)
| Raise (e : exn).

Arguments Return {A} a.
Arguments Raise {A} e.

(** A vector of the index is a list of floats; its dimension is its length. *)
Definition Vec : Type := list float.

(** One record of the persistent collection of the vector index. *)
Record Entry : Type := mkEntry {
  entry_id : string;
  entry_embedding : Vec;
  entry_document : string;
  entry_metadata : Py.dict
}.

(** What outlives a call: the [knowledge_base] and [model_logs] tables, the
    persisted collection, and (as a ghost trace) every batch of texts that
    was sent to an embedding model. *)
Record World : Type := mkWorld {
  knowledge_base : list Models.KnowledgeBase;
  collection : list Entry;
  model_logs : list Models.ModelLog;
  embedded : list (list string)
}.

Definition M (A : Type) : Type := World -> result A * World.

Definition ret {A : Type} (a : A) : M A := fun w => (Return a, w).

Definition raise {A : Type} (e : exn) : M A := fun w => (Raise e, w).

Definition bind {A B : Type} (m : M A) (k : A -> M B) : M B :=
  fun w =>
    match m w with
    | (Return a, w') => k a w'
    | (Raise e, w') => (Raise e, w')
    end.

(** [try: m except Exception: h] *)
Definition try_except {A : Type} (m : M A) (h : exn -> M A) : M A :=
  fun w =>
    match m w with
    | (Return a, w') => (Return a, w')
    | (Raise e, w') => h e w'
    end.

Definition gets {A : Type} (f : World -> A) : M A := fun w => (Return (f w), w).

Definition modify (f : World -> World) : M unit := fun w => (Return tt, f w).

Declare Scope monad_scope.
Delimit Scope monad_scope with monad.
Notation "x <- m ;; k" := (bind m (fun x => k))
  (at level 61, m at next level, right associativity) : monad_scope.
Notation "m ;;; k" := (bind m (fun _ => k))
  (at level 61, right associativity) : monad_scope.
Open Scope monad_scope.

(** ** rag_pipeline.py: embedding service, vector store, pipeline *)

(** One search as the pipeline issues it: the text that is embedded, the
    number of results asked for, and the metadata filter ([None]: no
    filter). *)
Record SearchRequest : Type := mkSearchRequest {
  query_text : string;
  n_results : nat;
  filter_metadata : option Py.dict
}.

Record EmbeddingService : Type := mkEmbeddingService {
  model_name : string;
  client : bool;                     (* an API client is attached *)
  embedding_model : option string    (* the local model that was loaded *)
}.

Record VectorStore : Type := mkVectorStore {
  collection_name : string
}.

Record RAGPipeline : Type := mkRAGPipeline {
  embedding_service : EmbeddingService;
  vector_store : VectorStore
}.

(** The result of [classify_lead]. *)
Record Classification : Type := mkClassification {
  intent : string;
  confidence : float;
  reason : string;
  retrieved_docs : list string;
  context_snippets : list string
}.

(** ** message_generator.py: templates, parsing, confidence, fallback *)

(** A field of [user_template]. *)
Inductive placeholder : Type :=
| P_name | P_company | P_email | P_message | P_context.

(** A template string: literal text and [{field}] placeholders. *)
Inductive piece : Type :=
| Lit (s : string)
| Hole (p : placeholder).

Record Template : Type := mkTemplate {
  template_name : string;
  system_prompt : string;
  user_template : list piece
}.

Definition hot_template : Template :=
  mkTemplate "high_intent_followup"
"You are a helpful sales assistant for BizPilot, a lead management automation platform.

The lead has shown HIGH purchase intent. Your goal is to:
1. Acknowledge their specific interest/question
2. Provide relevant information from the knowledge base
3. Make it easy for them to take the next step (demo, trial, purchase)

Tone: Professional but friendly. Direct and action-oriented.
Length: 80-120 words max.
Include: Clear CTA with specific next step."
  [Lit "Lead Information:
Name: "; Hole P_name; Lit "
Company: "; Hole P_company; Lit "
Email: "; Hole P_email; Lit "
Message: "; Hole P_message; Lit "

Context from our knowledge base:
"; Hole P_context; Lit "

Generate a personalized follow-up email that:
1. References their specific inquiry
2. Uses the provided context to answer their needs
3. Includes a clear call-to-action

Format:
SUBJECT: [subject line]
BODY: [email body]"].

Definition warm_template : Template :=
  mkTemplate "nurture_followup"
"You are a helpful sales assistant for BizPilot.

This lead is INTERESTED but needs nurturing. Your goal is to:
1. Acknowledge their interest
2. Educate them on how BizPilot solves their problem
3. Build trust with relevant information

Tone: Helpful and consultative, not pushy.
Length: 100-150 words.
Include: Soft CTA (learn more, see examples, etc.)"
  [Lit "Lead Information:
Name: "; Hole P_name; Lit "
Company: "; Hole P_company; Lit "
Message: "; Hole P_message; Lit "

Relevant information:
"; Hole P_context; Lit "

Write a nurturing follow-up that:
1. Addresses their inquiry
2. Provides helpful context
3. Invites them to learn more

Format:
SUBJECT: [subject line]
BODY: [email body]"].

Definition cold_template : Template :=
  mkTemplate "introduction"
"You are a helpful assistant for BizPilot.

This lead is EARLY STAGE. Your goal is to:
1. Acknowledge their inquiry professionally
2. Provide a brief introduction to BizPilot
3. Offer resources

Tone: Professional and informative, no hard sell.
Length: 60-100 words.
Include: Resource offer (guide, case study, etc.)"
  [Lit "Lead Information:
Name: "; Hole P_name; Lit "
Email: "; Hole P_email; Lit "
Message: "; Hole P_message; Lit "

Company info:
"; Hole P_context; Lit "

Write a brief, professional introduction email.

Format:
SUBJECT: [subject line]
BODY: [email body]"].

(** [MessageGenerator._load_templates] *)
Definition _load_templates : list (string * Template) :=
  [("hot", hot_template); ("warm", warm_template); ("cold", cold_template)].

(** [self.templates.get(intent, self.templates['cold'])] *)
Definition template_for (templates : list (string * Template)) (intent : string) : Template :=
  Py.lookup_default templates intent (Py.lookup_default templates "cold" cold_template).

(** [template.format(name=..., company=..., email=..., message=..., context=...)] *)
Definition format (t : list piece) (name company email message context : string) : string :=
  String.concat ""
    (map (fun p =>
            match p with
            | Lit s => s
            | Hole P_name => name
            | Hole P_company => company
            | Hole P_email => email
            | Hole P_message => message
            | Hole P_context => context
            end) t).

Module Message.

(** The mapping [generate_message] returns. *)
Record GeneratedMessage : Type := mkGeneratedMessage {
  subject : string;
  body : string;
  channel : string;
  confidence : float;
  template_used : string;
  context_used : list string;
  context_snippets : list string;
  model_version : string;
  latency_ms : Z;
  tokens_used : Z
}.

End Message.

(** What the generative backend answers. *)
Inductive ContentBlock : Type :=
| TextBlock (text : string)
| OtherBlock.

Record Usage : Type := mkUsage {
  input_tokens : Z;
  output_tokens : Z
}.

Record Response : Type := mkResponse {
  response_content : list ContentBlock;
  usage : Usage
}.

Record MessageGenerator : Type := mkMessageGenerator {
  generator_model_version : string;
  rag_pipeline : RAGPipeline;
  templates : list (string * Template)
}.

(** The loop of [_parse_response] over the lines of the answer. *)
Fixpoint parse_lines (lines : list string) (subject : string) (body_lines : list string)
    (in_body : bool) : string * list string :=
  match lines with
  | [] => (subject, body_lines)
  | line :: rest =>
      if Py.startswith (Py.strip line) "SUBJECT:" then
        parse_lines rest (Py.strip (Py.remove "SUBJECT:" line)) body_lines in_body
      else if Py.startswith (Py.strip line) "BODY:" then
        let body_start := Py.strip (Py.remove "BODY:" line) in
        parse_lines rest subject
          (if String.eqb body_start "" then body_lines else Py.append body_lines body_start)
          true
      else if in_body then parse_lines rest subject (Py.append body_lines line) in_body
      else parse_lines rest subject body_lines in_body
  end.

(** [MessageGenerator._parse_response] *)
Definition _parse_response (content : string) : string * string :=
  let lines := Py.split_lines content in
  let '(subject, body_lines) := parse_lines lines "" [] false in
  let body := Py.strip (Py.join (String "010" "") body_lines) in
  let subject := if String.eqb subject "" then "Re: Your inquiry about BizPilot" else subject in
  let body := if String.eqb body "" then content else body in
  (subject, body).

Definition intent_weights : list (string * float) :=
  [("hot", 1.0%float); ("warm", 0.85%float); ("cold", 0.7%float)].

(** [MessageGenerator._calculate_confidence]; [sum] adds from the left. *)
Definition _calculate_confidence (contexts : list RetrievedContext) (intent : string) : float :=
  match contexts with
  | [] => 0.5%float
  | _ =>
      let avg_similarity :=
        (Py.sum (map score contexts) / Py.float_of_Z (Z.of_nat (length contexts)))%float in
      let intent_mult := Py.lookup_default intent_weights intent 0.6%float in
      let confidence := Py.min (avg_similarity * intent_mult)%float 0.95%float in
      Py.round2 confidence
  end.

(** The [templates] mapping of [_generate_fallback_message]: subject and body. *)
Definition fallback_templates (lead_data : LeadData) : list (string * (string * string)) :=
  [("hot",
    ("Re: Your BizPilot inquiry",
     "Hi " ++ Py.field_or (name lead_data) "there" ++ ",

Thanks for your interest in BizPilot!

I'd love to show you how we can help automate your lead management and boost conversions.

Are you available for a quick 15-minute demo this week?

Best,
BizPilot Team"));
   ("warm",
    ("Learn more about BizPilot",
     "Hi " ++ Py.field_or (name lead_data) "there" ++ ",

Thanks for reaching out!

BizPilot helps small businesses automate lead triage and follow-ups, typically improving conversion rates by 15-25%.

I'd be happy to share more details about how it works. Would you like to see a quick demo?

Best,
BizPilot Team"));
   ("cold",
    ("Nice to meet you!",
     "Hi " ++ Py.field_or (name lead_data) "there" ++ ",

Thanks for your inquiry!

BizPilot is a lead management automation platform for small businesses. We'd be happy to share more information.

Feel free to reply if you'd like to learn more!

Best,
BizPilot Team"))].

(** [MessageGenerator._generate_fallback_message] *)
Definition _generate_fallback_message (lead_data : LeadData) (intent : string)
    : Message.GeneratedMessage :=
  let templates := fallback_templates lead_data in
  let template :=
    Py.lookup_default templates intent
      (Py.lookup_default templates "cold" ("Nice to meet you!", "")) in
  Message.mkGeneratedMessage
    (fst template) (snd template)
    "email" 0.50%float "fallback" [] [] "fallback" 0 0.

(** ** rag_pipeline.py and message_generator.py over their collaborators *)

Section Core.

(** [SentenceTransformer(model_name)]: the model is loaded, or the library
    raises (a name it does not know, no network). *)
Variable load_model : string -> result unit.

(** [openai.OpenAI(api_key=os.getenv('OPENAI_API_KEY'))]: the client is
    created, or the library raises (no key). *)
Variable create_client : result unit.

(** [SentenceTransformer(model_name).encode(text)]: the vector, or the
    library's error. *)
Variable local_encode : string -> string -> result Vec.

(** [client.embeddings.create(model=..., input=text)]: the vector, or the
    library's error (network, credentials, status). *)
Variable api_encode : string -> string -> result Vec.

(** The cosine distance of the collection (["hnsw:space": "cosine"]). *)
Variable distance : Vec -> Vec -> float.

(** [EmbeddingService.__init__]: the name selects the backend; what the
    library raises while the client is created or the model is loaded
    leaves the constructor. *)
Definition EmbeddingService_init (model_name : string) : M EmbeddingService :=
  if String.eqb model_name "openai"
  then match create_client with
       | Return _ => ret (mkEmbeddingService model_name true None)
       | Raise e => raise e
       end
  else match load_model model_name with
       | Return _ => ret (mkEmbeddingService model_name false (Some model_name))
       | Raise e => raise e
       end.

(** The vector one text gets from the backend of [svc], or the error of
    the backend. *)
Definition encode (svc : EmbeddingService) (text : string) : result Vec :=
  if client svc then api_encode "text-embedding-3-small" text
  else match embedding_model svc with
       | Some m => local_encode m text
       | None => Raise AttributeError
       end.

Definition log_embedded (texts : list string) : M unit :=
  modify (fun w => mkWorld (knowledge_base w) (collection w) (model_logs w)
                           (Py.append (embedded w) texts)).

(** [EmbeddingService.embed] *)
Definition embed (svc : EmbeddingService) (text : string) : M Vec :=
  log_embedded [text] ;;;
  match encode svc text with
  | Return v => ret v
  | Raise e => raise e
  end.

Fixpoint encode_all (svc : EmbeddingService) (texts : list string) : result (list Vec) :=
  match texts with
  | [] => Return []
  | t :: rest =>
      match encode svc t, encode_all svc rest with
      | Return v, Return vs => Return (v :: vs)
      | Raise e, _ => Raise e
      | _, Raise e => Raise e
      end
  end.

(** [EmbeddingService.embed_batch] *)
Definition embed_batch (svc : EmbeddingService) (texts : list string) : M (list Vec) :=
  log_embedded texts ;;;
  match encode_all svc texts with
  | Return vs => ret vs
  | Raise e => raise e
  end.

(** [chromadb.Client(Settings(...)).get_or_create_collection(name=..., ...)]:
    the persisted collection is opened, or the library raises. *)
Variable open_collection : string -> result unit.

(** [VectorStore.__init__]: a handle on the persisted collection (the
    pipeline only ever opens the default one, which [collection] holds). *)
Definition VectorStore_init (collection_name : string) : M VectorStore :=
  match open_collection collection_name with
  | Return _ => ret (mkVectorStore collection_name)
  | Raise e => raise e
  end.

(** The dimensionality the collection is bound to once it holds a vector. *)
Definition dimension (c : list Entry) : option nat :=
  match c with
  | [] => None
  | e :: _ => Some (length (entry_embedding e))
  end.

Definition fits (dim : option nat) (v : Vec) : bool :=
  match dim with
  | None => true
  | Some n => Nat.eqb (length v) n
  end.

Definition has_id (c : list Entry) (i : string) : bool :=
  existsb (fun e => String.eqb (entry_id e) i) c.

(** [collection.add], as the index library documents it: every vector
    must have the collection's dimensionality (that of the first vector
    when the collection is empty); a record whose id is already present is
    left out. *)
Fixpoint collection_add (c : list Entry) (new : list Entry) : result (list Entry) :=
  match new with
  | [] => Return c
  | e :: rest =>
      if fits (dimension c) (entry_embedding e) then
        if has_id c (entry_id e) then collection_add c rest
        else collection_add (Py.append c e) rest
      else Raise InvalidDimension
  end.

(** [where=...]: every pair of the filter is in the record's metadata. *)
Definition matches (where_ : option Py.dict) (e : Entry) : bool :=
  match where_ with
  | None => true
  | Some f =>
      forallb (fun kv =>
                 match Py.get (entry_metadata e) (fst kv) with
                 | Some v => Py.value_eqb v (snd kv)
                 | None => false
                 end) f
  end.

(** Nearest first; among equal distances the earlier record first. *)
Fixpoint insert_by_distance (q : Vec) (e : Entry) (l : list Entry) : list Entry :=
  match l with
  | [] => [e]
  | y :: l' =>
      if (distance q (entry_embedding e) <=? distance q (entry_embedding y))%float
      then e :: y :: l'
      else y :: insert_by_distance q e l'
  end.

Definition nearest_first (q : Vec) (l : list Entry) : list Entry :=
  fold_right (insert_by_distance q) [] l.

(** [collection.query] for one query vector, as the index library
    documents it: the [n_results] nearest records that pass the filter; a
    query vector of another dimensionality is refused. *)
Definition collection_query (c : list Entry) (q : Vec) (n_results : nat)
    (where_ : option Py.dict) : result (list Entry) :=
  if fits (dimension c) q
  then Return (firstn n_results (nearest_first q (filter (matches where_) c)))
  else Raise InvalidDimension.

(** [VectorStore.add_documents] *)
Definition add_documents (vs : VectorStore) (documents : list (string * string * Py.dict))
    (embeddings : list Vec) : M unit :=
  fun w =>
    let new := map (fun de => mkEntry (fst (fst (fst de))) (snd de)
                                      (snd (fst (fst de))) (snd (fst de)))
                   (combine documents embeddings) in
    match collection_add (collection w) new with
    | Return c' => (Return tt, mkWorld (knowledge_base w) c' (model_logs w) (embedded w))
    | Raise e => (Raise e, w)
    end.

(** [VectorStore.search] *)
Definition search (vs : VectorStore) (query_embedding : Vec) (n_results : nat)
    (filter_metadata : option Py.dict) : M (list RetrievedContext) :=
  fun w =>
    match collection_query (collection w) query_embedding n_results filter_metadata with
    | Return results =>
        (Return (map (fun e => mkContext (entry_id e) (entry_document e)
                                 (1.0 - distance query_embedding (entry_embedding e))%float
                                 (entry_metadata e))
                     results), w)
    | Raise e => (Raise e, w)
    end.

(** [VectorStore.delete_document] *)
Definition delete_document (vs : VectorStore) (doc_id : string) : M unit :=
  modify (fun w => mkWorld (knowledge_base w)
                     (filter (fun e => negb (String.eqb (entry_id e) doc_id)) (collection w))
                     (model_logs w) (embedded w)).

(** [RAGPipeline.__init__] *)
Definition RAGPipeline_init (embedding_model : string) : M RAGPipeline :=
  svc <- EmbeddingService_init embedding_model ;;
  vs <- VectorStore_init "bizpilot_knowledge" ;;
  ret (mkRAGPipeline svc vs).

(** [force_refresh or not doc.embedding_id] *)
Definition needs_indexing (force_refresh : bool) (doc : Models.KnowledgeBase) : bool :=
  force_refresh || negb (Py.truthy (Models.embedding_id doc)).

(** [f"kb_{doc.id}"] *)
Definition kb_doc_id (doc : Models.KnowledgeBase) : string :=
  "kb_" ++ Py.str_of_int (Models.id doc).

Definition vector_doc (doc : Models.KnowledgeBase) : string * string * Py.dict :=
  (kb_doc_id doc, Models.content doc,
   [("title", Py.VStr (Models.title doc));
    ("doc_type", Py.VStr (Models.doc_type doc));
    ("source_url", Py.VStr (Py.field_or (Models.source_url doc) ""));
    ("priority", Py.VInt (Models.priority doc))]).

(** [session.commit()] after the loop: every row that was indexed now
    carries its reference. *)
Definition commit_embedding_ids (force_refresh : bool) : M unit :=
  modify (fun w =>
    mkWorld (map (fun doc =>
                    if Models.active doc && needs_indexing force_refresh doc
                    then Models.set_embedding_id doc (kb_doc_id doc)
                    else doc)
                 (knowledge_base w))
            (collection w) (model_logs w) (embedded w)).

(** [RAGPipeline.index_knowledge_base] *)
Definition index_knowledge_base (self : RAGPipeline) (force_refresh : bool) : M unit :=
  docs <- gets (fun w => filter Models.active (knowledge_base w)) ;;
  match docs with
  | [] => ret tt
  | _ =>
      let docs_to_index := filter (needs_indexing force_refresh) docs in
      match docs_to_index with
      | [] => ret tt
      | _ =>
          let contents := map Models.content docs_to_index in
          embeddings <- embed_batch (embedding_service self) contents ;;
          let vector_docs := map vector_doc docs_to_index in
          add_documents (vector_store self) vector_docs embeddings ;;;
          commit_embedding_ids force_refresh
      end
  end.

(** The query of [classify_lead], as the code assembles it. *)
Definition classification_query_parts (lead_data : LeadData) : list string :=
  let query_parts := [] in
  let query_parts :=
    if Py.truthy (company lead_data)
    then Py.append query_parts ("Company: " ++ Py.field_or (company lead_data) "")
    else query_parts in
  let source_meta := source_meta_of lead_data in
  let query_parts :=
    if Py.truthy (message source_meta)
    then Py.append query_parts ("Message: " ++ Py.field_or (message source_meta) "")
    else query_parts in
  let query_parts :=
    if Py.truthy (subject source_meta)
    then Py.append query_parts ("Subject: " ++ Py.field_or (subject source_meta) "")
    else query_parts in
  query_parts.

Definition classification_query (lead_data : LeadData) : string :=
  match classification_query_parts lead_data with
  | [] => Py.field_or (name lead_data) ""
  | query_parts => Py.join (String "010" "") query_parts
  end.

Definition classification_request (lead_data : LeadData) : SearchRequest :=
  mkSearchRequest (classification_query lead_data) 5 None.

(** Embed the text of a request and search with its limit and filter. *)
Definition run_request (self : RAGPipeline) (r : SearchRequest) : M (list RetrievedContext) :=
  query_embedding <- embed (embedding_service self) (query_text r) ;;
  search (vector_store self) query_embedding (n_results r) (filter_metadata r).

(** [RAGPipeline.classify_lead] *)
Definition classify_lead (self : RAGPipeline) (lead_data : LeadData) : M Classification :=
  let source_meta := source_meta_of lead_data in
  let r := classification_request lead_data in
  contexts <- run_request self r ;;
  let '(intent, confidence, reason) :=
    _classify_with_rules (query_text r) contexts source_meta in
  ret (mkClassification intent confidence reason
         (map doc_id contexts)
         (map (fun ctx => Py.take 200 (content ctx)) contexts)).

(** The query of [retrieve_context_for_message], as the code assembles it. *)
Definition generation_query_parts (lead_data : LeadData) (intent : string) : list string :=
  let query_parts := [] in
  let query_parts :=
    if String.eqb intent "hot" then Py.append query_parts ("pricing demo trial purchase")
    else if String.eqb intent "warm" then Py.append query_parts ("features benefits how it works")
    else Py.append query_parts "introduction overview getting started" in
  let query_parts :=
    if Py.truthy (company lead_data)
    then Py.append query_parts (Py.field_or (company lead_data) "")
    else query_parts in
  query_parts.

Definition generation_request (lead_data : LeadData) (intent : string) : SearchRequest :=
  mkSearchRequest (Py.join " " (generation_query_parts lead_data intent)) 3
    (if String.eqb intent "hot" then Some [("doc_type", Py.VStr "faq")] else None).

(** [RAGPipeline.retrieve_context_for_message] *)
Definition retrieve_context_for_message (self : RAGPipeline) (lead_data : LeadData)
    (intent : string) : M (list RetrievedContext) :=
  run_request self (generation_request lead_data intent).


(** ** message_generator.py: the calls that reach a collaborator *)

(** [client.messages.create(model=..., max_tokens=..., system=..., messages=[user])] *)
Variable messages_create : string -> Z -> string -> string -> result Response.

(** The two readings of [time.time()]. *)
Variable start_time end_time : float.

(** Whether the session of [_log_model_call] can be opened and committed. *)
Variable session_ok : bool.

(** [MessageGenerator.__init__] *)
Definition MessageGenerator_init (model_version : string) : M MessageGenerator :=
  rag <- RAGPipeline_init "all-MiniLM-L6-v2" ;;
  ret (mkMessageGenerator model_version rag _load_templates).

(** [MessageGenerator._log_model_call] *)
Definition _log_model_call (self : MessageGenerator) (operation : string)
    (input_data : LeadData * string) (output_data : string * string)
    (latency_ms tokens_used : Z) (confidence : float) : M unit :=
  let cost_usd := ((Py.float_of_Z tokens_used / 1000) * 0.01)%float in
  let log := Models.mkModelLog (generator_model_version self) operation input_data
               output_data latency_ms tokens_used cost_usd confidence in
  if session_ok
  then modify (fun w => mkWorld (knowledge_base w) (collection w)
                          (Py.append (model_logs w) log) (embedded w))
  else raise DatabaseError.

(** [response.content[0].text] *)
Definition first_text (r : Response) : M string :=
  match response_content r with
  | [] => raise IndexError
  | TextBlock text :: _ => ret text
  | OtherBlock :: _ => raise AttributeError
  end.

(** [int((time.time() - start_time) * 1000)] *)
Definition elapsed_ms : M Z :=
  match Py.int_of_float ((end_time - start_time) * 1000)%float with
  | Some z => ret z
  | None => raise OverflowError
  end.

(** The prompt of [generate_message] for the contexts it works with; each
    context line starts with a bullet (three bytes in UTF-8) and a space. *)
Definition user_message_for (template : Template) (lead_data : LeadData)
    (retrieved_contexts : list RetrievedContext) : string :=
  let context_text :=
    Py.join (String "010" (String "010" ""))
      (map (fun ctx => String "226" (String "128" (String "162" " ")) ++ Py.take 300 (content ctx))
           (firstn 3 retrieved_contexts)) in
  format (user_template template)
    (Py.field_or (name lead_data) "there")
    (Py.field_or (company lead_data) "your company")
    (Py.field_or (email lead_data) "")
    (Py.field_or (message (source_meta_of lead_data)) "their inquiry")
    context_text.

(** [if retrieved_contexts is None: retrieved_contexts = ...] *)
Definition contexts_for (self : MessageGenerator) (lead_data : LeadData) (intent : string)
    (retrieved_contexts : option (list RetrievedContext)) : M (list RetrievedContext) :=
  match retrieved_contexts with
  | None => retrieve_context_for_message (rag_pipeline self) lead_data intent
  | Some contexts => ret contexts
  end.

(** [MessageGenerator.generate_message] *)
Definition generate_message (self : MessageGenerator) (lead_data : LeadData)
    (intent : string) (retrieved_contexts : option (list RetrievedContext))
    : M Message.GeneratedMessage :=
  retrieved_contexts <- contexts_for self lead_data intent retrieved_contexts ;;
  let template := template_for (templates self) intent in
  let user_message := user_message_for template lead_data retrieved_contexts in
  try_except
    (response <- (fun w => (messages_create (generator_model_version self) 1000
                              (system_prompt template) user_message, w)) ;;
     text <- first_text response ;;
     let '(subject, body) := _parse_response text in
     let confidence := _calculate_confidence retrieved_contexts intent in
     latency_ms <- elapsed_ms ;;
     let tokens_used := (input_tokens (usage response) + output_tokens (usage response))%Z in
     _log_model_call self "generate_message" (lead_data, intent) (subject, body)
       latency_ms tokens_used confidence ;;;
     ret (Message.mkGeneratedMessage subject body "email" confidence
            (template_name template)
            (map doc_id retrieved_contexts)
            (map (fun ctx => Py.take 200 (content ctx)) retrieved_contexts)
            (generator_model_version self) latency_ms tokens_used))
    (fun e => ret (_generate_fallback_message lead_data intent)).

(** [MessageGenerator.generate_variant]: both branches end in the standard call. *)
Definition generate_variant (self : MessageGenerator) (lead_data : LeadData)
    (intent variant_name : string) : M Message.GeneratedMessage :=
  if String.eqb variant_name "control" then generate_message self lead_data intent None
  else generate_message self lead_data intent None.

End Core.

(** ** Vocabulary of the properties and fixtures for their instances *)

(** [sub] occurs in [s] as a substring. *)
Definition occurs_in (sub s : string) : Prop :=
  exists pre post, s = pre ++ sub ++ post.

(** Some phrase of [signals] occurs in [text]. *)
Definition mentions (signals : list string) (text : string) : Prop :=
  exists s, In s signals /\ occurs_in s text.

(** The intent, confidence and reason of a classifier result. *)
Definition intent_of (r : string * float * string) : string := fst (fst r).
Definition confidence_of (r : string * float * string) : float := snd (fst r).
Definition reason_of (r : string * float * string) : string := snd r.

(** The first retrieved context scores above 0.7. *)
Definition top_exceeds (contexts : list RetrievedContext) : Prop :=
  exists c0 rest, contexts = c0 :: rest /\ (0.7 <? score c0)%float = true.



(** The backend call gives nothing to parse: it raised (timeout, status,
    connection), or its answer does not start with a text block. *)
Definition unusable (r : result Response) : Prop :=
  match r with
  | Raise _ => True
  | Return response =>
      match response_content response with
      | TextBlock _ :: _ => False
      | _ => True
      end
  end.

(** The backend call of [generate_message] for the contexts it works with. *)
Definition backend_call
    (messages_create : string -> Z -> string -> string -> result Response)
    (self : MessageGenerator) (lead_data : LeadData) (intent : string)
    (contexts : list RetrievedContext) : result Response :=
  let template := template_for (templates self) intent in
  messages_create (generator_model_version self) 1000%Z (system_prompt template)
    (user_message_for template lead_data contexts).

(** The row [_log_model_call] writes for a call. *)
Definition audit_record (self : MessageGenerator) (lead_data : LeadData) (intent : string)
    (contexts : list RetrievedContext) (response : Response) (text : string)
    (latency_ms : Z) : Models.ModelLog :=
  let tokens_used := (input_tokens (usage response) + output_tokens (usage response))%Z in
  Models.mkModelLog (generator_model_version self) "generate_message"
    (lead_data, intent) (_parse_response text) latency_ms tokens_used
    ((Py.float_of_Z tokens_used / 1000) * 0.01)%float
    (_calculate_confidence contexts intent).

(** The message of the successful path. *)
Definition generated (self : MessageGenerator) (intent : string)
    (contexts : list RetrievedContext) (response : Response) (text : string)
    (latency_ms : Z) : Message.GeneratedMessage :=
  Message.mkGeneratedMessage
    (fst (_parse_response text)) (snd (_parse_response text)) "email"
    (_calculate_confidence contexts intent)
    (template_name (template_for (templates self) intent))
    (map doc_id contexts)
    (map (fun ctx => Py.take 200 (content ctx)) contexts)
    (generator_model_version self) latency_ms
    (input_tokens (usage response) + output_tokens (usage response))%Z.

(** The service and the pipeline that construction yields for a backend name. *)
Definition service_for (model_name : string) : EmbeddingService :=
  if String.eqb model_name "openai"
  then mkEmbeddingService model_name true None
  else mkEmbeddingService model_name false (Some model_name).

Definition pipeline_for (model_name : string) : RAGPipeline :=
  mkRAGPipeline (service_for model_name) (mkVectorStore "bizpilot_knowledge").

(** What the library is asked to set up for a backend name: the API
    client for [openai], the local model of that name otherwise. *)
Definition backend_setup (load_model : string -> result unit)
    (create_client : result unit) (model_name : string) : result unit :=
  if String.eqb model_name "openai" then create_client else load_model model_name.

(** What construction of the pipeline comes to: the backend of the name is
    set up, then the collection is opened; the first error is the outcome. *)
Definition pipeline_setup (load_model : string -> result unit)
    (create_client : result unit) (open_collection : string -> result unit)
    (model_name : string) : result RAGPipeline :=
  match backend_setup load_model create_client model_name with
  | Return _ =>
      match open_collection "bizpilot_knowledge" with
      | Return _ => Return (pipeline_for model_name)
      | Raise e => Raise e
      end
  | Raise e => Raise e
  end.

(** What a text gets under a backend name: its vector, or the error of
    the backend. *)
Definition vector_of (local_encode api_encode : string -> string -> result Vec)
    (model_name text : string) : result Vec :=
  if String.eqb model_name "openai"
  then api_encode "text-embedding-3-small" text
  else local_encode model_name text.

(** The administrative update of a row's [active] flag, committed. *)
Definition set_active_flag (doc : Z) (b : bool) : M unit :=
  modify (fun w =>
    mkWorld (map (fun d => if Z.eqb (Models.id d) doc then Models.set_active d b else d)
                 (knowledge_base w))
            (collection w) (model_logs w) (embedded w)).

(** The administrative insert of a new row, committed. *)
Definition add_row (d : Models.KnowledgeBase) : M unit :=
  modify (fun w => mkWorld (Py.append (knowledge_base w) d)
                     (collection w) (model_logs w) (embedded w)).

(** Fixtures: a library of local models whose vectors have dimension 2
    (each model with vectors of its own, as the two MiniLM models share
    their 384 components), an API whose vectors have another dimension, 3
    (as the API model has 1536), constructors that succeed for the models the library knows,
    for a key that is set and for the collection, the cosine distance, a knowledge base of one
    active row, a lead, and backends that answer and that time out. *)
Definition toy_local (model text : string) : result Vec :=
  if String.eqb model "all-MiniLM-L6-v2"
  then Return [1.0%float; Py.float_of_Z (Z.of_nat (String.length text))]
  else Return [Py.float_of_Z (Z.of_nat (String.length text)); 1.0%float].

Definition toy_api (model text : string) : result Vec :=
  Return [Py.float_of_Z (Z.of_nat (String.length text)); 1.0%float; 0.5%float].

Definition toy_load (model : string) : result unit :=
  if String.eqb model "all-MiniLM-L6-v2" || String.eqb model "all-MiniLM-L12-v2"
  then Return tt
  else Raise (EmbeddingError "unknown model").

Definition key_set : result unit := Return tt.

Definition store_opens (collection_name : string) : result unit := Return tt.

Definition key_missing : result unit := Raise (EmbeddingError "no api key").

Definition dot (a b : Vec) : float :=
  fold_left (fun acc xy => (acc + fst xy * snd xy)%float) (combine a b) 0%float.

Definition cosine_distance (a b : Vec) : float :=
  (1.0 - dot a b / (sqrt (dot a a) * sqrt (dot b b)))%float.

Definition pricing_row : Models.KnowledgeBase :=
  Models.mkKnowledgeBase 1 "Pricing - Starter Plan"
    "Our Starter plan is $49/month and includes: up to 100 leads per month."
    "faq" None None 0 true.

Definition demo_row : Models.KnowledgeBase :=
  Models.mkKnowledgeBase 2 "Demo Request"
    "Want to see BizPilot in action? Book a 15-minute demo with our team."
    "faq" None None 0 true.

Definition fresh_world : World := mkWorld [pricing_row] [] [] [].

Definition local_pipeline : RAGPipeline := pipeline_for "all-MiniLM-L6-v2".

Definition api_pipeline : RAGPipeline := pipeline_for "openai".

(** [fresh_world] after [index_knowledge_base()] with the local backend. *)
Definition indexed_world : World :=
  snd (index_knowledge_base toy_local toy_api local_pipeline false fresh_world).

Definition sarah : LeadData :=
  mkLead (Some "Sarah Johnson") (Some "TechStart Inc") (Some "sarah@techstart.com")
    (Some (mkSourceMeta (Some "I saw your product and want to schedule a demo.") None)).

Definition toy_generator : MessageGenerator :=
  mkMessageGenerator "claude-sonnet-4-5-20250929" local_pipeline _load_templates.

Definition answering (model : string) (max_tokens : Z) (system user : string)
    : result Response :=
  Return (mkResponse
            [TextBlock "SUBJECT: Your BizPilot demo
BODY: Hi Sarah,
Happy to show you BizPilot this week."]
            (mkUsage 420 80)).

Definition timing_out (model : string) (max_tokens : Z) (system user : string)
    : result Response :=
  Raise (APIError "timeout").

(** Backends whose answer is a text without the markers, and an empty text. *)
Definition answering_plainly (model : string) (max_tokens : Z) (system user : string)
    : result Response :=
  Return (mkResponse [TextBlock "Thanks for reaching out, Sarah."] (mkUsage 420 30)).

Definition answering_nothing (model : string) (max_tokens : Z) (system user : string)
    : result Response :=
  Return (mkResponse [TextBlock ""] (mkUsage 420 0)).

Definition pricing_context : RetrievedContext :=
  mkContext "kb_1" "Our Starter plan is $49/month and includes: up to 100 leads per month."
    0.8%float [("title", Py.VStr "Pricing - Starter Plan"); ("doc_type", Py.VStr "faq")].

(** What the generation pass retrieves for [sarah], and the world after it. *)
Definition retrieved_for_sarah : list RetrievedContext :=
  match fst (retrieve_context_for_message toy_local toy_api cosine_distance
               local_pipeline sarah "hot" indexed_world) with
  | Return contexts => contexts
  | Raise _ => []
  end.

Definition world_after_retrieval : World :=
  snd (retrieve_context_for_message toy_local toy_api cosine_distance
         local_pipeline sarah "hot" indexed_world).

(** A context at cosine distance 1.5 from the query: similarity -0.5. *)
Definition distant_context : RetrievedContext :=
  mkContext "kb_7" "Office relocation notice." (1.0 - 1.5)%float
    [("title", Py.VStr "Notice"); ("doc_type", Py.VStr "other")].

(** ** rag_pipeline.py and api.py: the sample knowledge base and start-up *)

(** The [sample_docs] of [initialize_sample_knowledge_base]: title, content, doc_type. *)
Definition sample_docs : list (string * string * string) :=
  [("Product Overview",
   "BizPilot automates lead management and follow-up for small businesses. It uses AI to classify leads, generate personalized responses, and track conversions. Key features include smart triage, automated follow-ups, and performance analytics.",
   "product_page");
  ("Pricing - Starter Plan",
   "Our Starter plan is $49/month and includes: up to 100 leads per month, automated triage, email and SMS follow-ups, basic analytics dashboard. Perfect for solopreneurs and small teams.",
   "faq");
  ("Pricing - Growth Plan",
   "Growth plan at $149/month includes: up to 500 leads per month, multi-channel follow-ups (email, SMS, WhatsApp), A/B testing, advanced analytics, priority support. Ideal for growing businesses.",
   "faq");
  ("How It Works",
   "BizPilot integrates with your existing tools (email, forms, CRM). When a new lead comes in, our AI analyzes their inquiry, classifies their intent (hot/warm/cold), and generates a personalized follow-up message. You can review and edit before sending, or auto-send based on confidence thresholds.",
   "product_page");
  ("Integration Setup",
   "Setting up BizPilot takes less than 10 minutes. Connect your email via Gmail/Outlook OAuth, add webhook URLs to your forms, or upload CSV files. We support Google Forms, Typeform, HubSpot, Salesforce, and custom webhooks.",
   "faq");
  ("Privacy & Security",
   "We take privacy seriously. All data is encrypted at rest and in transit. We offer PII redaction for sensitive information, and you can request data deletion at any time. For enterprises, we provide on-premise deployment options.",
   "product_page");
  ("Demo Request",
   "Want to see BizPilot in action? Book a 15-minute demo with our team. We'll walk through your specific use case and show you how BizPilot can improve your lead conversion rates. Calendar link: https://cal.com/bizpilot/demo",
   "faq");
  ("ROI Metrics",
   "Our customers typically see: 40-60% faster response times, 15-25% increase in conversion rates, 10-15 hours saved per week on manual follow-ups. Average ROI is 3-5x within the first 3 months.",
   "case_study")].

Section Startup.

(** The primary key the database gives to a row added to a table that
    holds [rows]. *)
Variable next_id : list Models.KnowledgeBase -> Z.

Variable load_model : string -> result unit.
Variable create_client : result unit.
Variable open_collection : string -> result unit.
Variable local_encode : string -> string -> result Vec.
Variable api_encode : string -> string -> result Vec.

(** [session.add] of a [KnowledgeBase] row for each sample, in order;
    the columns that are not given take their defaults. *)
Fixpoint add_samples (docs : list (string * string * string))
    (rows : list Models.KnowledgeBase) : list Models.KnowledgeBase :=
  match docs with
  | [] => rows
  | (title, content, doc_type) :: rest =>
      add_samples rest
        (Py.append rows
           (Models.mkKnowledgeBase (next_id rows) title content doc_type None None 0 true))
  end.

(** [initialize_sample_knowledge_base] *)
Definition initialize_sample_knowledge_base : M unit :=
  existing <- gets (fun w => length (knowledge_base w)) ;;
  if (0 <? existing)%nat then ret tt
  else modify (fun w => mkWorld (add_samples sample_docs (knowledge_base w))
                          (collection w) (model_logs w) (embedded w)).

(** [startup_event] of api.py: the tables exist, the samples are loaded,
    the knowledge base is indexed. *)
Definition startup_event : M unit :=
  initialize_sample_knowledge_base ;;;
  rag <- RAGPipeline_init load_model create_client open_collection "all-MiniLM-L6-v2" ;;
  index_knowledge_base local_encode api_encode rag false.

End Startup.

(** The keys a fresh table gives: 1, 2, 3, ... *)
Definition serial_id (rows : list Models.KnowledgeBase) : Z := Z.of_nat (length rows) + 1.

(** A table without rows, a generator whose pipeline uses the API backend,
    and a store that holds the vectors of two rows. *)
Definition empty_world : World := mkWorld [] [] [] [].

Definition api_generator : MessageGenerator :=
  mkMessageGenerator "claude-sonnet-4-5-20250929" api_pipeline _load_templates.

Definition two_rows_world : World :=
  snd (index_knowledge_base toy_local toy_api local_pipeline false
         (snd (add_row demo_row indexed_world))).

(** A float that is not below zero, or is not a number. *)
Definition not_negative (f : spec_float) : Prop :=
  match f with
  | S754_zero _ => True
  | S754_nan => True
  | S754_infinity s => s = false
  | S754_finite s _ _ => s = false
  end.

(** * Properties *)

(** ** Strings *)

Lemma prefix_true_iff (s p : string) :
  String.prefix p s = true <-> exists post, s = p ++ post.
Proof.
  revert p; induction s as [|d s IH]; intros [|c p]; simpl.
  - split; [intros _; exists ""; reflexivity | reflexivity].
  - split; [discriminate | intros [post H]; discriminate].
  - split; [intros _; exists (String d s); reflexivity | reflexivity].
  - destruct (ascii_dec c d) as [->|Hne].
    + rewrite IH. split; intros [post H]; exists post.
      * now rewrite H.
      * now injection H.
    + split; [discriminate | intros [post H]; injection H; intros _ E; now symmetry in E].
Qed.

Lemma contains_true_iff (sub s : string) :
  Py.contains sub s = true <-> occurs_in sub s.
Proof.
  induction s as [|c s IH].
  - cbn [Py.contains]. rewrite orb_false_r, prefix_true_iff. split.
    + intros [post H]. exists "", post. exact H.
    + intros [[|a pre] [post H]]; [exists post; exact H | discriminate].
  - cbn [Py.contains]. rewrite orb_true_iff, prefix_true_iff, IH. split.
    + intros [[post H] | [pre [post H]]].
      * exists "", post. exact H.
      * exists (String c pre), post. simpl. now rewrite H.
    + intros [[|a pre] [post H]].
      * left. exists post. exact H.
      * right. exists pre, post. simpl in H. now injection H.
Qed.

Lemma any_contains_iff (signals : list string) (text : string) :
  Py.any (fun signal => Py.contains signal text) signals = true <-> mentions signals text.
Proof.
  unfold Py.any, mentions. rewrite existsb_exists.
  split; intros [s [Hin H]]; exists s; split; auto; now apply contains_true_iff.
Qed.

Lemma matched_iff (signals : list string) (text s : string) :
  In s (matched signals text) <-> In s signals /\ occurs_in s text.
Proof.
  unfold matched. rewrite filter_In, contains_true_iff. reflexivity.
Qed.


Lemma lower_length (s : string) : String.length (Py.lower s) = String.length s.
Proof. induction s as [|c s IH]; simpl; [reflexivity | now rewrite IH]. Qed.


Lemma app_assoc_s (a b c : string) : (a ++ b) ++ c = a ++ b ++ c.
Proof. induction a as [|x a IH]; simpl; [reflexivity | now rewrite IH]. Qed.


(** ** The rule classifier *)

(** The cascade, one branch at a time. *)
Lemma classify_hot (query : string) (contexts : list RetrievedContext) (source_meta : SourceMeta) :
  mentions hot_signals (Py.lower query) ->
  _classify_with_rules query contexts source_meta
  = ("hot", 0.85%float,
     "High-intent keywords detected: " ++ Py.repr_list (matched hot_signals (Py.lower query))).
Proof.
  intros H. apply any_contains_iff in H. unfold _classify_with_rules. now rewrite H.
Qed.

Lemma not_mentions_false (signals : list string) (text : string) :
  ~ mentions signals text ->
  Py.any (fun signal => Py.contains signal text) signals = false.
Proof.
  intros H. apply not_true_is_false. intros E. apply H. now apply any_contains_iff.
Qed.

Lemma classify_warm (query : string) (contexts : list RetrievedContext) (source_meta : SourceMeta) :
  ~ mentions hot_signals (Py.lower query) ->
  mentions warm_signals (Py.lower query) ->
  _classify_with_rules query contexts source_meta
  = ("warm", 0.70%float,
     "Interest indicators found: " ++ Py.repr_list (matched warm_signals (Py.lower query))).
Proof.
  intros Hh Hw. apply not_mentions_false in Hh. apply any_contains_iff in Hw.
  unfold _classify_with_rules. now rewrite Hh, Hw.
Qed.

Lemma classify_brief (query : string) (contexts : list RetrievedContext) (source_meta : SourceMeta) :
  ~ mentions hot_signals (Py.lower query) ->
  ~ mentions warm_signals (Py.lower query) ->
  (String.length query < 20)%nat ->
  _classify_with_rules query contexts source_meta
  = ("cold", 0.60%float, "Brief inquiry, needs more context").
Proof.
  intros Hh Hw Hl. apply not_mentions_false in Hh, Hw. apply Nat.ltb_lt in Hl.
  unfold _classify_with_rules. now rewrite Hh, Hw, Hl.
Qed.

Lemma classify_relevant (query : string) (contexts : list RetrievedContext) (source_meta : SourceMeta) :
  ~ mentions hot_signals (Py.lower query) ->
  ~ mentions warm_signals (Py.lower query) ->
  (20 <= String.length query)%nat ->
  top_exceeds contexts ->
  intent_of (_classify_with_rules query contexts source_meta) = "warm" /\
  confidence_of (_classify_with_rules query contexts source_meta) = 0.65%float.
Proof.
  intros Hh Hw Hl [c0 [rest [-> Hs]]].
  apply not_mentions_false in Hh, Hw. apply Nat.ltb_ge in Hl.
  unfold _classify_with_rules. rewrite Hh, Hw, Hl, Hs. split; reflexivity.
Qed.

Lemma classify_default (query : string) (contexts : list RetrievedContext) (source_meta : SourceMeta) :
  ~ mentions hot_signals (Py.lower query) ->
  ~ mentions warm_signals (Py.lower query) ->
  (20 <= String.length query)%nat ->
  ~ top_exceeds contexts ->
  _classify_with_rules query contexts source_meta
  = ("cold", 0.50%float, "Standard inquiry, no strong signals").
Proof.
  intros Hh Hw Hl Ht.
  apply not_mentions_false in Hh, Hw. apply Nat.ltb_ge in Hl.
  unfold _classify_with_rules. rewrite Hh, Hw, Hl.
  destruct contexts as [|c0 rest]; [reflexivity|].
  destruct (0.7 <? score c0)%float eqn:Hs; [|reflexivity].
  exfalso. apply Ht. now exists c0, rest.
Qed.

(** C1. The classifier is an ordered, first-match-wins cascade over the
    lowercased query: a hot phrase (one of the nine listed) gives hot, 0.85
    and a reason that lists exactly the hot phrases that occur; else a warm
    phrase gives warm, 0.70; else a query shorter than 20 characters gives
    cold, 0.60; else a top context scoring above 0.7 gives warm, 0.65; else
    cold, 0.50. *)
Theorem classifier_cascade :
  forall (query : string) (contexts : list RetrievedContext) (source_meta : SourceMeta),
    let r := _classify_with_rules query contexts source_meta in
    let text := Py.lower query in
    hot_signals = ["urgent"; "asap"; "immediately"; "buy now"; "purchase";
                   "pricing"; "demo"; "trial"; "start today"]
    /\ (mentions hot_signals text ->
        intent_of r = "hot" /\ confidence_of r = 0.85%float /\
        reason_of r = "High-intent keywords detected: "
                      ++ Py.repr_list (matched hot_signals text) /\
        forall s, In s (matched hot_signals text) <-> In s hot_signals /\ occurs_in s text)
    /\ (~ mentions hot_signals text -> mentions warm_signals text ->
        intent_of r = "warm" /\ confidence_of r = 0.70%float)
    /\ (~ mentions hot_signals text -> ~ mentions warm_signals text ->
        (String.length query < 20)%nat ->
        intent_of r = "cold" /\ confidence_of r = 0.60%float)
    /\ (~ mentions hot_signals text -> ~ mentions warm_signals text ->
        (20 <= String.length query)%nat -> top_exceeds contexts ->
        intent_of r = "warm" /\ confidence_of r = 0.65%float)
    /\ (~ mentions hot_signals text -> ~ mentions warm_signals text ->
        (20 <= String.length query)%nat -> ~ top_exceeds contexts ->
        intent_of r = "cold" /\ confidence_of r = 0.50%float).
Proof.
  intros query contexts source_meta r text. subst r text.
  split; [reflexivity|]. split; [|split; [|split; [|split]]].
  - intros H. rewrite (classify_hot _ contexts source_meta H).
    split; [reflexivity|]. split; [reflexivity|]. split; [reflexivity|].
    intros s. apply matched_iff.
  - intros Hh Hw. rewrite (classify_warm _ contexts source_meta Hh Hw). now split.
  - intros Hh Hw Hl. rewrite (classify_brief _ contexts source_meta Hh Hw Hl). now split.
  - intros Hh Hw Hl Ht. exact (classify_relevant _ _ source_meta Hh Hw Hl Ht).
  - intros Hh Hw Hl Ht. rewrite (classify_default _ _ source_meta Hh Hw Hl Ht). now split.
Qed.

(** C9. Whatever the query, the contexts and the metadata, the classifier
    answers hot, warm or cold, never unqualified, with a confidence that is
    one of 0.50, 0.60, 0.65, 0.70, 0.85, hence between 0 and 1. *)
Theorem classifier_range :
  forall (query : string) (contexts : list RetrievedContext) (source_meta : SourceMeta),
    let r := _classify_with_rules query contexts source_meta in
    (intent_of r = "hot" \/ intent_of r = "warm" \/ intent_of r = "cold")
    /\ intent_of r <> "unqualified"
    /\ (confidence_of r = 0.50%float \/ confidence_of r = 0.60%float \/
        confidence_of r = 0.65%float \/ confidence_of r = 0.70%float \/
        confidence_of r = 0.85%float)
    /\ (0 <=? confidence_of r)%float = true
    /\ (confidence_of r <=? 1)%float = true.
Proof.
  intros query contexts source_meta r. subst r. unfold _classify_with_rules.
  destruct (Py.any _ hot_signals);
    [|destruct (Py.any _ warm_signals);
      [|destruct (String.length query <? 20)%nat;
        [|destruct contexts as [|c0 rest];
          [|destruct (0.7 <? score c0)%float]]]];
    cbn [intent_of confidence_of fst snd];
    (split; [tauto|]); (split; [discriminate|]); (split; [tauto|]);
    split; reflexivity.
Qed.

(** ** The two retrieval passes *)









Section Passes.

Variable local_encode : string -> string -> result Vec.
Variable api_encode : string -> string -> result Vec.
Variable distance : Vec -> Vec -> float.



End Passes.

Example query_with_all_fields :
  classification_query
    (mkLead (Some "John Doe") (Some "Acme Corp") None
       (Some (mkSourceMeta (Some "Can we talk?") (Some "Hello"))))
  = "Company: Acme Corp
Message: Can we talk?
Subject: Hello".
Proof. reflexivity. Qed.

Example query_with_name_only :
  classification_query (mkLead (Some "John Doe") None None None) = "John Doe"
  /\ classification_query (mkLead (Some "John Doe") (Some "") None
                             (Some (mkSourceMeta None (Some "")))) = "John Doe"
  /\ classification_query (mkLead None None None None) = "".
Proof. repeat split. Qed.

Example generation_requests :
  generation_request (mkLead None (Some "Acme Corp") None None) "hot"
  = mkSearchRequest "pricing demo trial purchase Acme Corp" 3
      (Some [("doc_type", Py.VStr "faq")])
  /\ generation_request (mkLead None None None None) "warm"
     = mkSearchRequest "features benefits how it works" 3 None
  /\ generation_request (mkLead None (Some "Acme Corp") None None) "unqualified"
     = mkSearchRequest "introduction overview getting started Acme Corp" 3 None.
Proof. repeat split. Qed.

(** A company called Demo Corp makes a one-word greeting a hot lead, and the
    label makes a two-word message too long for the brief rule. *)
Example company_name_is_matched :
  _classify_with_rules
    (classification_query (mkLead None (Some "Demo Corp") None
                             (Some (mkSourceMeta (Some "hello") None))))
    [] (mkSourceMeta (Some "hello") None)
  = ("hot", 0.85%float, "High-intent keywords detected: ['demo']")
  /\ _classify_with_rules "need help now" [] (mkSourceMeta (Some "need help now") None)
     = ("cold", 0.60%float, "Brief inquiry, needs more context")
  /\ _classify_with_rules
       (classification_query (mkLead None None None
                                (Some (mkSourceMeta (Some "need help now") None))))
       [] (mkSourceMeta (Some "need help now") None)
     = ("cold", 0.50%float, "Standard inquiry, no strong signals").
Proof. repeat split. Qed.

(** ** Indexing *)

Lemma filter_none {A : Type} (f : A -> bool) (l : list A) :
  (forall x, In x l -> f x = false) -> filter f l = [].
Proof.
  induction l as [|a l IH]; intros H; simpl; [reflexivity|].
  rewrite (H a (or_introl eq_refl)). apply IH. intros x Hx. apply H. now right.
Qed.

Section Indexing.

Variable local_encode : string -> string -> result Vec.
Variable api_encode : string -> string -> result Vec.

(** An unforced run over rows whose active ones all carry a reference
    returns at once, in the same world. *)
Lemma index_already_indexed (self : RAGPipeline) (w : World) :
  (forall doc, In doc (knowledge_base w) -> Models.active doc = true ->
               Py.truthy (Models.embedding_id doc) = true) ->
  index_knowledge_base local_encode api_encode self false w = (Return tt, w).
Proof.
  intros H. unfold index_knowledge_base, bind, gets, ret.
  destruct (filter Models.active (knowledge_base w)) as [|d docs] eqn:E; [reflexivity|].
  rewrite filter_none; [reflexivity|].
  intros doc Hin. rewrite <- E in Hin. apply filter_In in Hin as [Hin Ha].
  unfold needs_indexing. now rewrite (H doc Hin Ha).
Qed.

(** C7. Unforced indexing of documents that all carry an embedding
    reference is a no-op: no text is sent to an embedding model, and the
    rows (so their references) and the collection are unchanged. *)
Theorem index_unforced_is_noop :
  forall (self : RAGPipeline) (w : World),
    Forall (fun doc => Py.truthy (Models.embedding_id doc) = true) (knowledge_base w) ->
    let out := index_knowledge_base local_encode api_encode self false w in
    fst out = Return tt
    /\ embedded (snd out) = embedded w
    /\ knowledge_base (snd out) = knowledge_base w
    /\ collection (snd out) = collection w
    /\ snd out = w.
Proof.
  intros self w H out. subst out.
  rewrite index_already_indexed; [repeat split|].
  intros doc Hin _. rewrite Forall_forall in H. now apply H.
Qed.

(** After an unforced run that returned, every active row carries a reference. *)
Lemma index_leaves_references (self : RAGPipeline) (w : World) :
  fst (index_knowledge_base local_encode api_encode self false w) = Return tt ->
  forall doc,
    In doc (knowledge_base (snd (index_knowledge_base local_encode api_encode self
                                   false w))) ->
    Models.active doc = true ->
    Py.truthy (Models.embedding_id doc) = true.
Proof.
  unfold index_knowledge_base, bind, gets, ret.
  destruct (filter Models.active (knowledge_base w)) as [|d docs] eqn:E.
  - intros _ doc Hin Ha. cbn [snd] in Hin.
    assert (Hf : In doc (filter Models.active (knowledge_base w)))
      by (apply filter_In; now split).
    rewrite E in Hf. contradiction.
  - destruct (filter (needs_indexing false) (d :: docs)) as [|d' docs'] eqn:F.
    + intros _ doc Hin Ha. cbn [snd] in Hin.
      assert (Hf : In doc (filter Models.active (knowledge_base w)))
        by (apply filter_In; now split).
      rewrite E in Hf.
      destruct (Py.truthy (Models.embedding_id doc)) eqn:T; [reflexivity|].
      assert (Hn : In doc (filter (needs_indexing false) (d :: docs))).
      { apply filter_In. split; [exact Hf|]. unfold needs_indexing. now rewrite T. }
      rewrite F in Hn. contradiction.
    + unfold embed_batch, bind, log_embedded, modify.
      destruct (encode_all _ _ _ _) as [vs|e]; [|discriminate].
      unfold ret, add_documents. cbn [collection knowledge_base model_logs embedded].
      destruct (collection_add _ _) as [c'|e]; [|discriminate].
      unfold commit_embedding_ids, modify. cbn [fst snd knowledge_base].
      intros _ doc Hin Ha.
      apply in_map_iff in Hin as [doc0 [Hd Hin0]].
      destruct (Models.active doc0 && needs_indexing false doc0) eqn:B.
      * subst doc. reflexivity.
      * subst doc0. rewrite Ha in B. cbn [andb] in B.
        unfold needs_indexing in B. cbn [orb] in B.
        now apply negb_false_iff in B.
Qed.

(** X20. Indexing twice, unforced, is indexing once. *)
Lemma index_unforced_twice (self : RAGPipeline) (w : World) :
  fst (index_knowledge_base local_encode api_encode self false w) = Return tt ->
  index_knowledge_base local_encode api_encode self false
    (snd (index_knowledge_base local_encode api_encode self false w))
  = (Return tt, snd (index_knowledge_base local_encode api_encode self false w)).
Proof.
  intros H. apply index_already_indexed. intros doc Hin Ha.
  now apply (index_leaves_references self w H doc Hin Ha).
Qed.



End Indexing.

Lemma index_unforced_is_noop_witness :
  Forall (fun doc => Py.truthy (Models.embedding_id doc) = true)
         (knowledge_base indexed_world)
  /\ fst (index_knowledge_base toy_local toy_api local_pipeline false indexed_world)
     = Return tt
  /\ snd (index_knowledge_base toy_local toy_api local_pipeline false indexed_world)
     = indexed_world.
Proof.
  assert (H : Forall (fun doc => Py.truthy (Models.embedding_id doc) = true)
                     (knowledge_base indexed_world)).
  { repeat constructor. }
  split; [exact H|].
  pose proof (index_unforced_is_noop toy_local toy_api local_pipeline indexed_world H) as T.
  cbv zeta in T. split; [apply T | apply T].
Defined.

(** The first run does index: the row gets its reference and the
    collection its vector. *)
Example first_index_writes :
  map Models.embedding_id (knowledge_base indexed_world) = [Some "kb_1"]
  /\ map entry_id (collection indexed_world) = ["kb_1"]
  /\ embedded indexed_world = [[Models.content pricing_row]].
Proof. repeat split. Qed.

(** ** Generation confidence *)

Lemma confidence_without_contexts (intent : string) :
  _calculate_confidence [] intent = 0.5%float.
Proof. reflexivity. Qed.

Lemma confidence_with_contexts (c : RetrievedContext) (cs : list RetrievedContext)
    (intent : string) :
  _calculate_confidence (c :: cs) intent
  = Py.round2
      (Py.min (Py.sum (map score (c :: cs)) / Py.float_of_Z (Z.of_nat (length (c :: cs)))
               * Py.lookup_default intent_weights intent 0.6)%float
              0.95%float).
Proof. reflexivity. Qed.

Lemma intent_weight_values (intent : string) :
  Py.lookup_default intent_weights "hot" 0.6%float = 1.0%float
  /\ Py.lookup_default intent_weights "warm" 0.6%float = 0.85%float
  /\ Py.lookup_default intent_weights "cold" 0.6%float = 0.7%float
  /\ (intent <> "hot" -> intent <> "warm" -> intent <> "cold" ->
      Py.lookup_default intent_weights intent 0.6%float = 0.6%float).
Proof.
  repeat split. intros H1 H2 H3. unfold Py.lookup_default, intent_weights.
  cbn [Py.lookup].
  destruct (String.eqb_spec "hot" intent); [congruence|].
  destruct (String.eqb_spec "warm" intent); [congruence|].
  destruct (String.eqb_spec "cold" intent); [congruence|]. reflexivity.
Qed.

(** C3, at the input where the code leaves the interval: one context of
    similarity -0.5 and a hot intent give -0.5, below 0 (the cap at 0.95 is
    the only clamp). *)
Theorem confidence_below_zero :
  _calculate_confidence [distant_context] "hot" = (-0.5)%float
  /\ (_calculate_confidence [distant_context] "hot" <? 0)%float = true
  /\ (0 <=? _calculate_confidence [distant_context] "hot")%float = false.
Proof. repeat split. Qed.

(** The cap itself works: three perfect matches score 0.95. *)
Example confidence_capped :
  _calculate_confidence
    [mkContext "a" "" 1.0%float []; mkContext "b" "" 1.0%float [];
     mkContext "c" "" 1.0%float []] "hot" = 0.95%float.
Proof. reflexivity. Qed.

(** ** Search *)

Lemma In_firstn {A : Type} (n : nat) (l : list A) (x : A) :
  In x (firstn n l) -> In x l.
Proof.
  revert l; induction n as [|n IH]; intros [|a l]; simpl; try tauto.
  intros [H|H]; [now left | right; now apply IH].
Qed.

Section Search.

Variable distance : Vec -> Vec -> float.

Lemma insert_by_distance_In (q : Vec) (e x : Entry) (l : list Entry) :
  In x (insert_by_distance distance q e l) <-> x = e \/ In x l.
Proof.
  induction l as [|y l IH]; cbn [insert_by_distance].
  - simpl. intuition.
  - destruct (distance q (entry_embedding e) <=? distance q (entry_embedding y))%float.
    + simpl. intuition.
    + simpl. rewrite IH. intuition.
Qed.

Lemma nearest_first_In (q : Vec) (x : Entry) (l : list Entry) :
  In x (nearest_first distance q l) <-> In x l.
Proof.
  induction l as [|y l IH]; [reflexivity|].
  unfold nearest_first in *. cbn [fold_right].
  rewrite insert_by_distance_In, IH. simpl. intuition.
Qed.

(** Whatever a search returns is a record of the collection that passes
    the filter, and there are at most [n_results] of them. *)
Lemma search_results (vs : VectorStore) (q : Vec) (n : nat) (f : option Py.dict)
    (w : World) (contexts : list RetrievedContext) :
  fst (search distance vs q n f w) = Return contexts ->
  (length contexts <= n)%nat
  /\ forall ctx, In ctx contexts ->
       exists e, In e (collection w) /\ matches f e = true
                 /\ doc_id ctx = entry_id e /\ content ctx = entry_document e
                 /\ metadata ctx = entry_metadata e.
Proof.
  unfold search, collection_query.
  destruct (fits (dimension (collection w)) q); [|discriminate].
  cbn [fst]. intros H. injection H as <-. split.
  - rewrite length_map. apply firstn_le_length.
  - intros ctx Hin. apply in_map_iff in Hin as [e [<- He]].
    apply In_firstn in He. apply nearest_first_In in He.
    apply filter_In in He as [Hc Hm]. exists e. repeat split; assumption.
Qed.

(** X19. After [delete_document] no search returns the deleted id. *)
Lemma delete_then_search (vs : VectorStore) (doc : string) (q : Vec) (n : nat)
    (f : option Py.dict) (w : World) (contexts : list RetrievedContext) :
  fst (search distance vs q n f (snd (delete_document vs doc w))) = Return contexts ->
  ~ In doc (map doc_id contexts).
Proof.
  intros H Hin. apply in_map_iff in Hin as [ctx [Hd Hc]].
  destruct (search_results _ _ _ _ _ _ H) as [_ Hall].
  destruct (Hall ctx Hc) as [e [He [_ [Hid _]]]].
  unfold delete_document, modify in He. cbn [snd collection] in He.
  apply filter_In in He as [_ Hne]. rewrite <- Hid, Hd in Hne.
  now rewrite String.eqb_refl in Hne.
Qed.

End Search.

(** ** Search after deactivation *)

(** C4, at the input where the invariant breaks: a row is indexed while
    active, its flag is then set to false, and a search still returns it. *)
Theorem search_returns_deactivated :
  let w := snd (set_active_flag 1 false indexed_world) in
  map Models.active (knowledge_base w) = [false]
  /\ map Models.embedding_id (knowledge_base w) = [Some "kb_1"]
  /\ (exists c,
        run_request toy_local toy_api cosine_distance local_pipeline
          (mkSearchRequest "what does the starter plan cost" 5 None) w
        = (Return [c], mkWorld (knowledge_base w) (collection w) (model_logs w)
                         (Py.append (embedded w) ["what does the starter plan cost"]))
        /\ doc_id c = "kb_1")
  /\ (exists cl,
        fst (classify_lead toy_local toy_api cosine_distance local_pipeline sarah w)
        = Return cl
        /\ retrieved_docs cl = ["kb_1"]).
Proof.
  cbv zeta. split; [reflexivity|]. split; [reflexivity|]. split.
  - eexists. split; [vm_compute; reflexivity | reflexivity].
  - eexists. split; [vm_compute; reflexivity | reflexivity].
Qed.

(** A later unforced run does not repair it: the inactive row is not even
    looked at, and its vector stays. *)
Example reindex_keeps_deactivated :
  let w := snd (set_active_flag 1 false indexed_world) in
  index_knowledge_base toy_local toy_api local_pipeline false w = (Return tt, w)
  /\ map entry_id (collection w) = ["kb_1"].
Proof. split; reflexivity. Qed.

(** ** Message generation *)

Lemma fallback_subject_not_empty (lead_data : LeadData) (intent : string) :
  Message.subject (_generate_fallback_message lead_data intent) <> "".
Proof.
  unfold _generate_fallback_message, Py.lookup_default, fallback_templates.
  cbn [Py.lookup Message.subject].
  destruct (String.eqb "hot" intent); [discriminate|].
  destruct (String.eqb "warm" intent); [discriminate|].
  destruct (String.eqb "cold" intent); discriminate.
Qed.

Lemma fallback_body_not_empty (lead_data : LeadData) (intent : string) :
  Message.body (_generate_fallback_message lead_data intent) <> "".
Proof.
  unfold _generate_fallback_message, Py.lookup_default, fallback_templates.
  cbn [Py.lookup Message.body].
  destruct (String.eqb "hot" intent); [discriminate|].
  destruct (String.eqb "warm" intent); [discriminate|].
  destruct (String.eqb "cold" intent); discriminate.
Qed.

(** The fallback message is the one of the intent: the hot one, the warm
    one, and the cold one for every other intent; its body greets the lead
    by name, or with "there". *)
Lemma fallback_by_intent (lead_data : LeadData) (intent : string) :
  let fallback := _generate_fallback_message lead_data intent in
  (intent = "hot" ->
   Message.subject fallback = "Re: Your BizPilot inquiry"
   /\ Message.body fallback = "Hi " ++ Py.field_or (name lead_data) "there" ++ ",

Thanks for your interest in BizPilot!

I'd love to show you how we can help automate your lead management and boost conversions.

Are you available for a quick 15-minute demo this week?

Best,
BizPilot Team")
  /\ (intent = "warm" ->
      Message.subject fallback = "Learn more about BizPilot"
      /\ Message.body fallback = "Hi " ++ Py.field_or (name lead_data) "there" ++ ",

Thanks for reaching out!

BizPilot helps small businesses automate lead triage and follow-ups, typically improving conversion rates by 15-25%.

I'd be happy to share more details about how it works. Would you like to see a quick demo?

Best,
BizPilot Team")
  /\ (intent <> "hot" -> intent <> "warm" ->
      Message.subject fallback = "Nice to meet you!"
      /\ Message.body fallback = "Hi " ++ Py.field_or (name lead_data) "there" ++ ",

Thanks for your inquiry!

BizPilot is a lead management automation platform for small businesses. We'd be happy to share more information.

Feel free to reply if you'd like to learn more!

Best,
BizPilot Team").
Proof.
  cbv zeta. split; [|split].
  - intros ->. split; reflexivity.
  - intros ->. split; reflexivity.
  - intros Hh Hw.
    unfold _generate_fallback_message, Py.lookup_default, fallback_templates.
    cbn [Py.lookup Message.subject Message.body].
    destruct (String.eqb_spec "hot" intent) as [E|_]; [now symmetry in E|].
    destruct (String.eqb_spec "warm" intent) as [E|_]; [now symmetry in E|].
    destruct (String.eqb "cold" intent); split; reflexivity.
Qed.

Section Generation.

Variable local_encode : string -> string -> result Vec.
Variable api_encode : string -> string -> result Vec.
Variable distance : Vec -> Vec -> float.
Variable messages_create : string -> Z -> string -> string -> result Response.
Variable start_time end_time : float.

(** A failed backend call ends in the handler of [generate_message]. *)
Lemma generate_message_on_failure :
  forall (session_ok : bool) (self : MessageGenerator) (lead_data : LeadData)
         (intent : string) (retrieved_contexts : option (list RetrievedContext))
         (w w' : World) (contexts : list RetrievedContext),
    contexts_for local_encode api_encode distance self lead_data intent retrieved_contexts w
    = (Return contexts, w') ->
    unusable (backend_call messages_create self lead_data intent contexts) ->
    generate_message local_encode api_encode distance messages_create start_time end_time
      session_ok self lead_data intent retrieved_contexts w
    = (Return (_generate_fallback_message lead_data intent), w').
Proof.
  intros session_ok self lead_data intent retrieved_contexts w w' contexts Hc Hu.
  unfold generate_message, bind at 1. rewrite Hc.
  unfold backend_call in Hu. unfold try_except, bind at 1.
  destruct (messages_create _ _ _ _) as [response|e]; [|reflexivity].
  cbn [unusable] in Hu. unfold bind at 1, first_text.
  destruct (response_content response) as [|[text|] rest];
    [reflexivity | contradiction | reflexivity].
Qed.

(** C2, as the code has it. When the backend call raises (timeout, status,
    connection) or its answer has no text block to read, [generate_message]
    returns normally with the static fallback message of the intent (the
    hot one, the warm one, the cold one for any other intent, each greeting
    the lead by name): confidence 0.50, template "fallback", no context ids
    or snippets, zero latency and tokens (so zero cost), and a subject and a
    body that are not empty. *)
Theorem generation_falls_back :
  forall (session_ok : bool) (self : MessageGenerator) (lead_data : LeadData)
         (intent : string) (retrieved_contexts : option (list RetrievedContext))
         (w w' : World) (contexts : list RetrievedContext),
    contexts_for local_encode api_encode distance self lead_data intent retrieved_contexts w
    = (Return contexts, w') ->
    unusable (backend_call messages_create self lead_data intent contexts) ->
    let fallback := _generate_fallback_message lead_data intent in
    generate_message local_encode api_encode distance messages_create start_time end_time
      session_ok self lead_data intent retrieved_contexts w
    = (Return fallback, w')
    /\ Message.confidence fallback = 0.50%float
    /\ Message.template_used fallback = "fallback"
    /\ Message.context_used fallback = []
    /\ Message.context_snippets fallback = []
    /\ Message.latency_ms fallback = 0%Z
    /\ Message.tokens_used fallback = 0%Z
    /\ ((Py.float_of_Z (Message.tokens_used fallback) / 1000) * 0.01)%float = 0%float
    /\ Message.subject fallback <> ""
    /\ Message.body fallback <> ""
    /\ Message.channel fallback = "email"
    /\ Message.model_version fallback = "fallback"
    /\ (intent = "hot" ->
        Message.subject fallback = "Re: Your BizPilot inquiry"
        /\ Message.body fallback = "Hi " ++ Py.field_or (name lead_data) "there" ++ ",

Thanks for your interest in BizPilot!

I'd love to show you how we can help automate your lead management and boost conversions.

Are you available for a quick 15-minute demo this week?

Best,
BizPilot Team")
    /\ (intent = "warm" ->
        Message.subject fallback = "Learn more about BizPilot"
        /\ Message.body fallback = "Hi " ++ Py.field_or (name lead_data) "there" ++ ",

Thanks for reaching out!

BizPilot helps small businesses automate lead triage and follow-ups, typically improving conversion rates by 15-25%.

I'd be happy to share more details about how it works. Would you like to see a quick demo?

Best,
BizPilot Team")
    /\ (intent <> "hot" -> intent <> "warm" ->
        Message.subject fallback = "Nice to meet you!"
        /\ Message.body fallback = "Hi " ++ Py.field_or (name lead_data) "there" ++ ",

Thanks for your inquiry!

BizPilot is a lead management automation platform for small businesses. We'd be happy to share more information.

Feel free to reply if you'd like to learn more!

Best,
BizPilot Team").
Proof.
  intros session_ok self lead_data intent retrieved_contexts w w' contexts Hc Hu fallback.
  subst fallback. split.
  - now apply generate_message_on_failure with (contexts := contexts).
  - pose proof (fallback_by_intent lead_data intent) as F. cbv zeta in F.
    do 7 (split; [reflexivity|]).
    split; [apply fallback_subject_not_empty|].
    split; [apply fallback_body_not_empty|].
    do 2 (split; [reflexivity|]). exact F.
Qed.

(** X21. The fallback path writes no row of [model_logs]. *)
Lemma fallback_is_not_logged :
  forall (session_ok : bool) (self : MessageGenerator) (lead_data : LeadData)
         (intent : string) (retrieved_contexts : option (list RetrievedContext))
         (w w' : World) (contexts : list RetrievedContext),
    contexts_for local_encode api_encode distance self lead_data intent retrieved_contexts w
    = (Return contexts, w') ->
    unusable (backend_call messages_create self lead_data intent contexts) ->
    model_logs (snd (generate_message local_encode api_encode distance messages_create
                       start_time end_time session_ok self lead_data intent
                       retrieved_contexts w))
    = model_logs w'.
Proof.
  intros session_ok self lead_data intent retrieved_contexts w w' contexts Hc Hu.
  now rewrite (generate_message_on_failure session_ok self lead_data intent
                 retrieved_contexts w w' contexts Hc Hu).
Qed.

(** C5, as the code has it. When the backend answers with a text and the
    clock readings are finite: if the audit row can be written, the call
    returns the generated message and has appended exactly that one row
    (model version, operation, input, output, latency, tokens, cost,
    confidence); if the write fails, the call still returns normally, but
    with the static fallback message, and no row is added. *)
Theorem audit_on_success :
  forall (session_ok : bool) (self : MessageGenerator) (lead_data : LeadData)
         (intent : string) (retrieved_contexts : option (list RetrievedContext))
         (w w' : World) (contexts : list RetrievedContext)
         (response : Response) (text : string) (rest : list ContentBlock) (latency_ms : Z),
    contexts_for local_encode api_encode distance self lead_data intent retrieved_contexts w
    = (Return contexts, w') ->
    backend_call messages_create self lead_data intent contexts = Return response ->
    response_content response = TextBlock text :: rest ->
    Py.int_of_float ((end_time - start_time) * 1000)%float = Some latency_ms ->
    let out := generate_message local_encode api_encode distance messages_create
                 start_time end_time session_ok self lead_data intent
                 retrieved_contexts w in
    (session_ok = true ->
     out = (Return (generated self intent contexts response text latency_ms),
            mkWorld (knowledge_base w') (collection w')
              (model_logs w' ++ [audit_record self lead_data intent contexts response
                                   text latency_ms])%list
              (embedded w')))
    /\ (session_ok = false ->
        out = (Return (_generate_fallback_message lead_data intent), w')).
Proof.
  intros session_ok self lead_data intent retrieved_contexts w w' contexts
         response text rest latency_ms Hc Hb Hr Hl out.
  subst out. unfold backend_call in Hb.
  split; intros ->;
    unfold generate_message, try_except, bind, first_text, elapsed_ms, _log_model_call;
    rewrite Hc, Hb, Hr; unfold ret at 1;
    unfold generated, audit_record;
    destruct (_parse_response text) as [subject body]; cbn [fst snd];
    rewrite Hl; reflexivity.
Qed.

End Generation.

Lemma generation_falls_back_witness :
  contexts_for toy_local toy_api cosine_distance toy_generator sarah "hot" None indexed_world
  = (Return retrieved_for_sarah, world_after_retrieval)
  /\ unusable (backend_call timing_out toy_generator sarah "hot" retrieved_for_sarah)
  /\ generate_message toy_local toy_api cosine_distance timing_out 1.5%float 2.75%float
       true toy_generator sarah "hot" None indexed_world
     = (Return (_generate_fallback_message sarah "hot"), world_after_retrieval)
  /\ Message.subject (_generate_fallback_message sarah "hot") = "Re: Your BizPilot inquiry"
  /\ Message.body (_generate_fallback_message sarah "hot") = "Hi Sarah Johnson,

Thanks for your interest in BizPilot!

I'd love to show you how we can help automate your lead management and boost conversions.

Are you available for a quick 15-minute demo this week?

Best,
BizPilot Team".
Proof.
  assert (Hc : contexts_for toy_local toy_api cosine_distance toy_generator sarah "hot"
                 None indexed_world
               = (Return retrieved_for_sarah, world_after_retrieval))
    by (vm_compute; reflexivity).
  assert (Hu : unusable (backend_call timing_out toy_generator sarah "hot"
                           retrieved_for_sarah))
    by exact I.
  split; [exact Hc|]. split; [exact Hu|]. split; [|split; reflexivity].
  exact (proj1 (generation_falls_back toy_local toy_api cosine_distance timing_out
                  1.5%float 2.75%float true toy_generator sarah "hot" None
                  indexed_world world_after_retrieval retrieved_for_sarah Hc Hu)).
Defined.

Lemma audit_on_success_witness :
  generate_message toy_local toy_api cosine_distance answering 1.5%float 2.75%float
    true toy_generator sarah "hot" (Some [pricing_context]) indexed_world
  = (Return (generated toy_generator "hot" [pricing_context]
               (mkResponse [TextBlock "SUBJECT: Your BizPilot demo
BODY: Hi Sarah,
Happy to show you BizPilot this week."] (mkUsage 420 80))
               "SUBJECT: Your BizPilot demo
BODY: Hi Sarah,
Happy to show you BizPilot this week." 1250),
     mkWorld (knowledge_base indexed_world) (collection indexed_world)
       (model_logs indexed_world
        ++ [audit_record toy_generator sarah "hot" [pricing_context]
              (mkResponse [TextBlock "SUBJECT: Your BizPilot demo
BODY: Hi Sarah,
Happy to show you BizPilot this week."] (mkUsage 420 80))
              "SUBJECT: Your BizPilot demo
BODY: Hi Sarah,
Happy to show you BizPilot this week." 1250])%list
       (embedded indexed_world)).
Proof.
  refine (proj1 (audit_on_success toy_local toy_api cosine_distance answering
                   1.5%float 2.75%float true toy_generator sarah "hot"
                   (Some [pricing_context]) indexed_world indexed_world [pricing_context]
                   _ _ [] 1250 eq_refl eq_refl eq_refl _) eq_refl).
  vm_compute. reflexivity.
Defined.

(** An answer without any content block is a failure too. *)
Example empty_answer_falls_back :
  fst (generate_message toy_local toy_api cosine_distance
         (fun _ _ _ _ => Return (mkResponse [] (mkUsage 10 0)))
         1.5%float 2.75%float true toy_generator sarah "warm"
         (Some [pricing_context]) indexed_world)
  = Return (_generate_fallback_message sarah "warm")
  /\ Message.subject (_generate_fallback_message sarah "warm") = "Learn more about BizPilot"
  /\ Message.subject (_generate_fallback_message sarah "unqualified") = "Nice to meet you!".
Proof. repeat split. Qed.

(** C2 fails as stated for a malformed answer. An answer whose text has
    no SUBJECT: and no BODY: line is not a failure for the code: the call
    returns the generated message under the template of the intent, with the
    generic subject, the whole text as body and the confidence of the
    contexts, not the fallback message; and for an answer whose text is
    empty the body of that message is empty. *)
Lemma malformed_answer_is_generated :
  fst (generate_message toy_local toy_api cosine_distance answering_plainly
         1.5%float 2.75%float true toy_generator sarah "hot"
         (Some [pricing_context]) indexed_world)
  = Return (Message.mkGeneratedMessage "Re: Your inquiry about BizPilot"
              "Thanks for reaching out, Sarah."
              "email" 0.8%float "high_intent_followup" ["kb_1"]
              ["Our Starter plan is $49/month and includes: up to 100 leads per month."]
              "claude-sonnet-4-5-20250929" 1250 450)
  /\ fst (generate_message toy_local toy_api cosine_distance answering_plainly
            1.5%float 2.75%float true toy_generator sarah "hot"
            (Some [pricing_context]) indexed_world)
     <> Return (_generate_fallback_message sarah "hot")
  /\ fst (generate_message toy_local toy_api cosine_distance answering_nothing
            1.5%float 2.75%float true toy_generator sarah "hot"
            (Some [pricing_context]) indexed_world)
     = Return (Message.mkGeneratedMessage "Re: Your inquiry about BizPilot" ""
                 "email" 0.8%float "high_intent_followup" ["kb_1"]
                 ["Our Starter plan is $49/month and includes: up to 100 leads per month."]
                 "claude-sonnet-4-5-20250929" 1250 420)
  /\ ~ unusable (answering_plainly "claude-sonnet-4-5-20250929" 1000 "" "")
  /\ ~ unusable (answering_nothing "claude-sonnet-4-5-20250929" 1000 "" "").
Proof.
  split; [vm_compute; reflexivity|].
  split; [vm_compute; intros H; discriminate H|].
  split; [vm_compute; reflexivity|]. split; intros H; exact H.
Qed.

(** What the generated message and its audit row look like. *)
Example generated_for_sarah :
  exists w',
    generate_message toy_local toy_api cosine_distance answering 1.5%float 2.75%float
      true toy_generator sarah "hot" (Some [pricing_context]) indexed_world
    = (Return (Message.mkGeneratedMessage "Your BizPilot demo"
                 "Hi Sarah,
Happy to show you BizPilot this week."
                 "email" 0.8%float "high_intent_followup" ["kb_1"]
                 ["Our Starter plan is $49/month and includes: up to 100 leads per month."]
                 "claude-sonnet-4-5-20250929" 1250 500), w')
    /\ map Models.tokens_used (model_logs w') = [500%Z]
    /\ map Models.cost_usd (model_logs w') = [0.005%float]
    /\ map Models.confidence_score (model_logs w') = [0.8%float].
Proof. eexists. split; [vm_compute; reflexivity | repeat split]. Qed.

(** C5 fails as stated, twice: a failing audit write replaces the generated
    message by the fallback one, and a call that falls back because the
    backend timed out leaves [model_logs] as it was. *)
Lemma audit_claim_fails :
  fst (generate_message toy_local toy_api cosine_distance answering 1.5%float 2.75%float
         false toy_generator sarah "hot" (Some [pricing_context]) indexed_world)
  <> fst (generate_message toy_local toy_api cosine_distance answering 1.5%float 2.75%float
            true toy_generator sarah "hot" (Some [pricing_context]) indexed_world)
  /\ fst (generate_message toy_local toy_api cosine_distance answering 1.5%float 2.75%float
            false toy_generator sarah "hot" (Some [pricing_context]) indexed_world)
     = Return (_generate_fallback_message sarah "hot")
  /\ model_logs (snd (generate_message toy_local toy_api cosine_distance timing_out
                        1.5%float 2.75%float true toy_generator sarah "hot"
                        (Some [pricing_context]) indexed_world))
     = model_logs indexed_world.
Proof.
  split; [|split; reflexivity].
  vm_compute. intros H. discriminate H.
Qed.

(** ** Backends and the store *)

Section Configuration.

Variable load_model : string -> result unit.
Variable create_client : result unit.
Variable open_collection : string -> result unit.
Variable local_encode : string -> string -> result Vec.
Variable api_encode : string -> string -> result Vec.
Variable distance : Vec -> Vec -> float.

(** Construction does what the libraries do for the name, and nothing
    else: it neither reads nor writes the world. *)
Lemma EmbeddingService_init_outcome (model_name : string) (w : World) :
  EmbeddingService_init load_model create_client model_name w
  = (match backend_setup load_model create_client model_name with
     | Return _ => Return (service_for model_name)
     | Raise e => Raise e
     end, w).
Proof.
  unfold EmbeddingService_init, backend_setup, service_for, ret, raise.
  destruct (String.eqb model_name "openai");
    [destruct create_client | destruct (load_model model_name)]; reflexivity.
Qed.

Lemma VectorStore_init_outcome (collection_name : string) (w : World) :
  VectorStore_init open_collection collection_name w
  = (match open_collection collection_name with
     | Return _ => Return (mkVectorStore collection_name)
     | Raise e => Raise e
     end, w).
Proof.
  unfold VectorStore_init. now destruct (open_collection collection_name).
Qed.

Lemma RAGPipeline_init_outcome (model_name : string) (w : World) :
  RAGPipeline_init load_model create_client open_collection model_name w
  = (pipeline_setup load_model create_client open_collection model_name, w).
Proof.
  unfold RAGPipeline_init, pipeline_setup, bind.
  rewrite EmbeddingService_init_outcome.
  destruct (backend_setup load_model create_client model_name); [|reflexivity].
  rewrite VectorStore_init_outcome.
  now destruct (open_collection "bizpilot_knowledge").
Qed.

Lemma RAGPipeline_init_returns (model_name : string) (w : World) (u u' : unit) :
  backend_setup load_model create_client model_name = Return u ->
  open_collection "bizpilot_knowledge" = Return u' ->
  RAGPipeline_init load_model create_client open_collection model_name w
  = (Return (pipeline_for model_name), w).
Proof.
  intros H H'. rewrite RAGPipeline_init_outcome. unfold pipeline_setup.
  now rewrite H, H'.
Qed.














End Configuration.

(** Construction fails as the library does: without a key for the API
    backend, and for a model the library does not know. *)
Example construction_failures :
  RAGPipeline_init toy_load key_missing store_opens "openai" indexed_world
  = (Raise (EmbeddingError "no api key"), indexed_world)
  /\ RAGPipeline_init toy_load key_set store_opens "no-such-model" indexed_world
     = (Raise (EmbeddingError "unknown model"), indexed_world)
  /\ RAGPipeline_init toy_load key_set store_opens "all-MiniLM-L6-v2" indexed_world
     = (Return local_pipeline, indexed_world).
Proof. repeat split. Qed.

(** The two cases at the fixtures: every vector of the API backend has
    another dimensionality than the store the local model filled, and
    every vector of the second local model has the store's. *)
Example dimensions_of_the_backends :
  (forall text, exists v,
      vector_of toy_local toy_api "openai" text = Return v
      /\ fits (dimension (collection indexed_world)) v = false)
  /\ (forall text, exists v,
         vector_of toy_local toy_api "all-MiniLM-L12-v2" text = Return v
         /\ fits (dimension (collection indexed_world)) v = true)
  /\ collection indexed_world <> []
  /\ filter (needs_indexing false)
         (filter Models.active (knowledge_base (snd (add_row demo_row indexed_world))))
     <> [].
Proof.
  split; [intros text; eexists; split; reflexivity|].
  split; [intros text; eexists; split; reflexivity|].
  split; discriminate.
Qed.


(** ** Response parsing *)

Lemma occurs_in_trans (a b c : string) : occurs_in a b -> occurs_in b c -> occurs_in a c.
Proof.
  intros [p1 [q1 ->]] [p2 [q2 ->]]. exists (p2 ++ p1), (q1 ++ q2).
  now rewrite !app_assoc_s.
Qed.

Lemma occurs_in_cons (c : ascii) (a s : string) : occurs_in a s -> occurs_in a (String c s).
Proof. intros [pre [post ->]]. now exists (String c pre), post. Qed.

Lemma lstrip_suffix (s : string) : exists pre, s = pre ++ Py.lstrip s.
Proof.
  induction s as [|c s [pre IH]]; [now exists ""|]. cbn [Py.lstrip].
  destruct (Py.is_space c); [|now exists ""].
  exists (String c pre). simpl. now rewrite <- IH.
Qed.

Lemma rstrip_prefix (s : string) : exists post, s = Py.rstrip s ++ post.
Proof.
  induction s as [|c s [post IH]]; [now exists ""|]. cbn [Py.rstrip].
  destruct (Py.rstrip s) as [|d r] eqn:E.
  - destruct (Py.is_space c).
    + now exists (String c s).
    + exists s. reflexivity.
  - exists post. cbn [append] in *. now rewrite <- IH.
Qed.

Lemma strip_occurs_in (s : string) : occurs_in (Py.strip s) s.
Proof.
  unfold Py.strip. destruct (lstrip_suffix s) as [pre Hl].
  destruct (rstrip_prefix (Py.lstrip s)) as [post Hr].
  exists pre, post. now rewrite <- Hr.
Qed.

(** The first line is a prefix of the text and every line occurs in it. *)
Lemma split_lines_shape (s : string) :
  exists l ls, Py.split_lines s = l :: ls
               /\ (exists rest, s = l ++ rest)
               /\ forall x, In x ls -> occurs_in x s.
Proof.
  induction s as [|c s [l [ls [E [[rest Hp] Ho]]]]].
  - exists "", []. split; [reflexivity|]. split; [now exists ""|]. intros x [].
  - cbn [Py.split_lines]. rewrite E. destruct (Ascii.eqb c "010").
    + exists "", (l :: ls). split; [reflexivity|]. split; [now exists (String c s)|].
      intros x [<-|H]; apply occurs_in_cons.
      * exists "", rest. exact Hp.
      * now apply Ho.
    + exists (String c l), ls. split; [reflexivity|]. split.
      * exists rest. cbn [append]. now rewrite <- Hp.
      * intros x H. apply occurs_in_cons. now apply Ho.
Qed.

Lemma split_lines_occurs_in (s line : string) :
  In line (Py.split_lines s) -> occurs_in line s.
Proof.
  destruct (split_lines_shape s) as [l [ls [E [[rest Hp] Ho]]]]. rewrite E.
  intros [<-|H]; [now exists "", rest | now apply Ho].
Qed.

(** Without a marker line the loop of [_parse_response] collects nothing. *)
Lemma parse_lines_no_marker (lines : list string) (subject : string)
    (body_lines : list string) :
  (forall line, In line lines ->
     Py.startswith (Py.strip line) "SUBJECT:" = false
     /\ Py.startswith (Py.strip line) "BODY:" = false) ->
  parse_lines lines subject body_lines false = (subject, body_lines).
Proof.
  induction lines as [|line lines IH]; intros H; [reflexivity|].
  cbn [parse_lines]. destruct (H line (or_introl eq_refl)) as [-> ->].
  apply IH. intros l Hl. apply H. now right.
Qed.

Lemma not_startswith (line marker text : string) :
  Py.contains marker text = false -> occurs_in line text ->
  Py.startswith (Py.strip line) marker = false.
Proof.
  intros Hc Ho. apply not_true_is_false. intros Hs.
  assert (H : occurs_in marker text).
  { apply occurs_in_trans with (b := line); [|exact Ho].
    apply occurs_in_trans with (b := Py.strip line); [|apply strip_occurs_in].
    unfold Py.startswith in Hs. apply prefix_true_iff in Hs as [post ->].
    now exists "", post. }
  apply contains_true_iff in H. congruence.
Qed.

(** X1. [_parse_response] on an answer without the markers: the standard
    subject, and the whole answer as the body. *)
Theorem parse_response_without_markers :
  forall content : string,
    Py.contains "SUBJECT:" content = false ->
    Py.contains "BODY:" content = false ->
    _parse_response content = ("Re: Your inquiry about BizPilot", content).
Proof.
  intros content Hs Hb. unfold _parse_response.
  rewrite parse_lines_no_marker; [reflexivity|].
  intros line Hin. apply split_lines_occurs_in in Hin.
  split; [now apply not_startswith with (text := content)
         | now apply not_startswith with (text := content)].
Qed.

Lemma parse_response_without_markers_witness :
  Py.contains "SUBJECT:" "Hi Sarah, happy to show you BizPilot this week." = false
  /\ Py.contains "BODY:" "Hi Sarah, happy to show you BizPilot this week." = false
  /\ _parse_response "Hi Sarah, happy to show you BizPilot this week."
     = ("Re: Your inquiry about BizPilot",
        "Hi Sarah, happy to show you BizPilot this week.").
Proof.
  split; [reflexivity|]. split; [reflexivity|].
  exact (parse_response_without_markers
           "Hi Sarah, happy to show you BizPilot this week." eq_refl eq_refl).
Defined.

(** [_parse_response] never gives an empty subject, and gives an empty
    body only for an empty answer. *)
Lemma parse_response_not_empty (content : string) :
  fst (_parse_response content) <> ""
  /\ (content <> "" -> snd (_parse_response content) <> "").
Proof.
  unfold _parse_response.
  destruct (parse_lines _ _ _ _) as [subject body_lines].
  destruct (String.eqb_spec subject ""), (String.eqb_spec (Py.strip (Py.join (String "010" "") body_lines)) "");
    cbn [fst snd]; split; auto; discriminate.
Qed.

Lemma split_lines_one_line (s : string) :
  Py.contains (String "010" "") s = false -> Py.split_lines s = [s].
Proof.
  induction s as [|c s IH]; [reflexivity|].
  cbn [Py.contains String.prefix]. intros H. apply orb_false_iff in H as [Hp Hc].
  cbn [Py.split_lines]. rewrite (IH Hc).
  destruct (Ascii.eqb_spec c "010") as [->|_]; [|reflexivity].
  destruct s; discriminate Hp.
Qed.

Lemma split_lines_first_line (a b : string) :
  Py.contains (String "010" "") a = false ->
  Py.split_lines (a ++ String "010" b) = a :: Py.split_lines b.
Proof.
  induction a as [|c a IH].
  - intros _. cbn [append Py.split_lines].
    destruct (split_lines_shape b) as [l [ls [E _]]]. now rewrite E.
  - cbn [Py.contains String.prefix]. intros H. apply orb_false_iff in H as [Hp Hc].
    cbn [append Py.split_lines]. rewrite (IH Hc).
    destruct (Ascii.eqb_spec c "010") as [->|_]; [|reflexivity].
    destruct a; discriminate Hp.
Qed.

Lemma contains_app_false (p s marker : string) :
  Py.contains marker (p ++ s) = false -> Py.contains marker s = false.
Proof.
  intros H. apply not_true_is_false. intros E. apply contains_true_iff in E.
  assert (O : occurs_in marker (p ++ s)).
  { destruct E as [pre [post ->]]. exists (p ++ pre), post. now rewrite app_assoc_s. }
  apply contains_true_iff in O. congruence.
Qed.

Lemma remove_from_skip (old p t : string) :
  Py.remove_from old (String.length p) (p ++ t) = Py.remove_from old 0 t.
Proof. induction p as [|c p IH]; [reflexivity | exact IH]. Qed.

Lemma remove_absent (old s : string) :
  Py.contains old s = false -> Py.remove old s = s.
Proof.
  unfold Py.remove. induction s as [|c s IH]; [reflexivity|].
  cbn [Py.contains]. intros H. apply orb_false_iff in H as [Hp Hc].
  cbn [Py.remove_from]. rewrite Hp. now rewrite (IH Hc).
Qed.

(** A marker in front of a text without one is what [replace] takes away. *)
Lemma remove_leading (c : ascii) (old t : string) :
  Py.contains (String c old) t = false ->
  Py.remove (String c old) (String c old ++ t) = t.
Proof.
  intros H. unfold Py.remove. cbn [append Py.remove_from].
  assert (P : String.prefix (String c old) (String c (old ++ t)) = true).
  { apply prefix_true_iff. now exists t. }
  rewrite P.
  replace (String.length (String c old) - 1)%nat with (String.length old)
    by (cbn [String.length]; lia).
  rewrite remove_from_skip. now apply remove_absent.
Qed.

Lemma lstrip_length (s : string) : (String.length (Py.lstrip s) <= String.length s)%nat.
Proof.
  induction s as [|c s IH]; [reflexivity|]. cbn [Py.lstrip].
  destruct (Py.is_space c); cbn [String.length]; lia.
Qed.

Lemma rstrip_length (s : string) : (String.length (Py.rstrip s) <= String.length s)%nat.
Proof.
  induction s as [|c s IH]; [reflexivity|]. cbn [Py.rstrip].
  destruct (Py.rstrip s); [destruct (Py.is_space c)|]; cbn [String.length] in *; lia.
Qed.

(** A text that [strip] leaves alone starts and ends with a character that
    is not white space. *)
Lemma strip_fixed (s : string) :
  Py.strip s = s -> Py.lstrip s = s /\ Py.rstrip s = s.
Proof.
  unfold Py.strip. intros H.
  assert (L : Py.lstrip s = s).
  { destruct s as [|c s]; [reflexivity|]. cbn [Py.lstrip] in *.
    destruct (Py.is_space c); [|reflexivity]. exfalso.
    pose proof (rstrip_length (Py.lstrip s)) as H1.
    pose proof (lstrip_length s) as H2.
    rewrite H in H1. cbn [String.length] in H1. lia. }
  split; [exact L | now rewrite L in H].
Qed.

Lemma rstrip_app (a s : string) :
  Py.rstrip s <> "" -> Py.rstrip (a ++ s) = a ++ Py.rstrip s.
Proof.
  intros H. induction a as [|c a IH]; [reflexivity|].
  cbn [append Py.rstrip]. rewrite IH.
  destruct (a ++ Py.rstrip s) as [|d r] eqn:E; [|reflexivity].
  destruct a; [cbn [append] in E; contradiction | discriminate E].
Qed.

(** [strip] leaves a marker followed by a blank and a clean text alone, and
    gives the clean text back once the marker is gone. *)
Lemma strip_blank (s : string) : Py.strip s = s -> Py.strip (String " " s) = s.
Proof. intros H. unfold Py.strip in *. exact H. Qed.

Lemma strip_marked (c : ascii) (m s : string) :
  Py.is_space c = false -> Py.strip s = s -> s <> "" ->
  Py.strip (String c m ++ s) = String c m ++ s.
Proof.
  intros Hc Hs Hne. destruct (strip_fixed s Hs) as [_ Hr].
  unfold Py.strip. cbn [append Py.lstrip]. rewrite Hc.
  change (String c (m ++ s)) with (String c m ++ s).
  rewrite rstrip_app; [now rewrite Hr | now rewrite Hr].
Qed.

(** X2. An answer of the expected form, with a one-line subject and a one-line
    body, parses back into that subject and that body. *)
Theorem parse_response_round_trip :
  forall subject body : string,
    Py.strip subject = subject -> subject <> "" ->
    Py.contains (String "010" "") subject = false ->
    Py.contains "SUBJECT:" subject = false ->
    Py.strip body = body -> body <> "" ->
    Py.contains (String "010" "") body = false ->
    Py.contains "BODY:" body = false ->
    _parse_response ("SUBJECT: " ++ subject ++ String "010" ("BODY: " ++ body))
    = (subject, body).
Proof.
  intros subject body Hs Hsne Hsn Hsm Hb Hbne Hbn Hbm.
  unfold _parse_response.
  replace ("SUBJECT: " ++ subject ++ String "010" ("BODY: " ++ body))
    with (("SUBJECT: " ++ subject) ++ String "010" ("BODY: " ++ body))
    by now rewrite app_assoc_s.
  rewrite split_lines_first_line by exact Hsn.
  rewrite split_lines_one_line by exact Hbn.
  cbn [parse_lines].
  change ("SUBJECT: " ++ subject) with ("SUBJECT:" ++ String " " subject).
  change ("BODY: " ++ body) with ("BODY:" ++ String " " body).
  assert (S1 : Py.strip ("SUBJECT:" ++ String " " subject) = "SUBJECT: " ++ subject)
    by (apply (strip_marked "S" "UBJECT: " subject); auto).
  assert (S2 : Py.strip ("BODY:" ++ String " " body) = "BODY: " ++ body)
    by (apply (strip_marked "B" "ODY: " body); auto).
  rewrite S1, S2.
  assert (R1 : Py.remove "SUBJECT:" ("SUBJECT:" ++ String " " subject) = String " " subject)
    by (apply remove_leading; cbn [Py.contains String.prefix]; exact Hsm).
  assert (R2 : Py.remove "BODY:" ("BODY:" ++ String " " body) = String " " body)
    by (apply remove_leading; cbn [Py.contains String.prefix]; exact Hbm).
  rewrite R1, R2, !strip_blank by assumption.
  assert (P1 : Py.startswith ("SUBJECT: " ++ subject) "SUBJECT:" = true) by reflexivity.
  assert (P2 : Py.startswith ("BODY: " ++ body) "SUBJECT:" = false) by reflexivity.
  assert (P3 : Py.startswith ("BODY: " ++ body) "BODY:" = true) by reflexivity.
  rewrite P1, P2, P3.
  destruct (String.eqb_spec body "") as [E|_]; [contradiction|].
  cbn [Py.append app Py.join]. rewrite Hb.
  destruct (String.eqb_spec subject "") as [E|_]; [contradiction|].
  destruct (String.eqb_spec body "") as [E|_]; [contradiction|]. reflexivity.
Qed.

Lemma parse_response_round_trip_witness :
  _parse_response ("SUBJECT: " ++ "Your BizPilot demo"
                   ++ String "010" ("BODY: " ++ "Happy to show you BizPilot this week."))
  = ("Your BizPilot demo", "Happy to show you BizPilot this week.").
Proof.
  apply parse_response_round_trip; first [reflexivity | discriminate].
Defined.

(** What the round trip leaves out: a later line that starts with the
    subject marker replaces the subject and is lost from the body. *)
Example subject_marker_in_body :
  _parse_response "SUBJECT: Demo
BODY: Hi Sarah,
Subject: pricing
SUBJECT: line of the body
Best"
  = ("line of the body", "Hi Sarah,
Subject: pricing
Best").
Proof. reflexivity. Qed.

(** ** Message generation: every path *)

Lemma take_length (n : nat) (s : string) : (String.length (Py.take n s) <= n)%nat.
Proof.
  revert s. induction n as [|n IH]; intros [|c s]; cbn [Py.take String.length]; try lia.
  specialize (IH s). lia.
Qed.

Lemma take_take (n : nat) (s : string) : Py.take n (Py.take n s) = Py.take n s.
Proof.
  revert s. induction n as [|n IH]; intros [|c s]; cbn [Py.take]; try reflexivity.
  now rewrite IH.
Qed.

Section Paths.

Variable local_encode : string -> string -> result Vec.
Variable api_encode : string -> string -> result Vec.
Variable distance : Vec -> Vec -> float.
Variable messages_create : string -> Z -> string -> string -> result Response.
Variable start_time end_time : float.
Variable session_ok : bool.

(** Once the contexts are there, a call ends in one of two ways: in the
    handler, or with the message parsed from the text of the answer and its
    audit row. *)
Lemma generate_message_cases (self : MessageGenerator) (lead_data : LeadData)
    (intent : string) (retrieved_contexts : option (list RetrievedContext))
    (w w' : World) (contexts : list RetrievedContext) :
  contexts_for local_encode api_encode distance self lead_data intent retrieved_contexts w
  = (Return contexts, w') ->
  generate_message local_encode api_encode distance messages_create start_time end_time
    session_ok self lead_data intent retrieved_contexts w
  = (Return (_generate_fallback_message lead_data intent), w')
  \/ exists response text rest latency_ms,
       backend_call messages_create self lead_data intent contexts = Return response
       /\ response_content response = TextBlock text :: rest
       /\ generate_message local_encode api_encode distance messages_create start_time
            end_time session_ok self lead_data intent retrieved_contexts w
          = (Return (generated self intent contexts response text latency_ms),
             mkWorld (knowledge_base w') (collection w')
               (model_logs w' ++ [audit_record self lead_data intent contexts response
                                    text latency_ms])%list
               (embedded w')).
Proof.
  intros Hc. unfold backend_call.
  destruct (messages_create (generator_model_version self) 1000%Z
              (system_prompt (template_for (templates self) intent))
              (user_message_for (template_for (templates self) intent) lead_data contexts))
    as [response|e] eqn:Hb.
  2: { left. unfold generate_message, try_except, bind. now rewrite Hc, Hb. }
  destruct (response_content response) as [|[text|] rest] eqn:Hr.
  1, 3: left; unfold generate_message, try_except, bind, first_text;
        now rewrite Hc, Hb, Hr.
  destruct (Py.int_of_float ((end_time - start_time) * 1000)%float) as [latency_ms|] eqn:Hl.
  2: { left. unfold generate_message, try_except, bind, first_text, elapsed_ms.
       rewrite Hc, Hb, Hr. unfold ret at 1.
       destruct (_parse_response text) as [subject body]. now rewrite Hl. }
  destruct session_ok eqn:Hs.
  - right. exists response, text, rest, latency_ms.
    split; [reflexivity|]. split; [exact Hr|].
    unfold generate_message, try_except, bind, first_text, elapsed_ms, _log_model_call.
    rewrite Hc, Hb, Hr. unfold ret at 1. unfold generated, audit_record.
    destruct (_parse_response text) as [subject body]. cbn [fst snd].
    rewrite Hl. reflexivity.
  - left.
    unfold generate_message, try_except, bind, first_text, elapsed_ms, _log_model_call.
    rewrite Hc, Hb, Hr. unfold ret at 1.
    destruct (_parse_response text) as [subject body].
    rewrite Hl. reflexivity.
Qed.

(** X3. Whatever the backend, the clock and the audit session do, a call whose
    contexts are there returns a message: the fallback one, or one under
    the template of the intent that reports every context. Its subject is
    never empty, and its body is empty only when the backend answered with
    an empty text. The knowledge base, the collection and the embedding
    trace are as retrieval left them, and [model_logs] has at most one more
    row. *)
Theorem generation_always_returns :
  forall (self : MessageGenerator) (lead_data : LeadData) (intent : string)
         (retrieved_contexts : option (list RetrievedContext))
         (w w' : World) (contexts : list RetrievedContext),
    contexts_for local_encode api_encode distance self lead_data intent retrieved_contexts w
    = (Return contexts, w') ->
    exists m w'',
      generate_message local_encode api_encode distance messages_create start_time
        end_time session_ok self lead_data intent retrieved_contexts w
      = (Return m, w'')
      /\ (m = _generate_fallback_message lead_data intent
          \/ (Message.template_used m = template_name (template_for (templates self) intent)
              /\ Message.context_used m = map doc_id contexts))
      /\ Message.subject m <> ""
      /\ (Message.body m = "" ->
          exists response rest,
            backend_call messages_create self lead_data intent contexts = Return response
            /\ response_content response = TextBlock "" :: rest)
      /\ knowledge_base w'' = knowledge_base w'
      /\ collection w'' = collection w'
      /\ embedded w'' = embedded w'
      /\ (model_logs w'' = model_logs w'
          \/ exists log, model_logs w'' = (model_logs w' ++ [log])%list).
Proof.
  intros self lead_data intent retrieved_contexts w w' contexts Hc.
  destruct (generate_message_cases self lead_data intent retrieved_contexts w w'
              contexts Hc) as [E|[response [text [rest [latency_ms [Hb [Hr E]]]]]]];
    rewrite E.
  - eexists. eexists. split; [reflexivity|].
    split; [now left|]. split; [apply fallback_subject_not_empty|].
    split; [intros B; now apply fallback_body_not_empty in B|].
    repeat split. now left.
  - eexists. eexists. split; [reflexivity|].
    cbn [knowledge_base collection embedded model_logs].
    split; [right; split; reflexivity|].
    destruct (parse_response_not_empty text) as [Ps Pb].
    split; [exact Ps|]. split.
    + cbn [generated Message.body]. intros B. exists response, rest.
      split; [exact Hb|]. rewrite Hr.
      destruct (String.eqb_spec text "") as [->|N]; [reflexivity|].
      now apply Pb in B.
    + repeat split. right. eexists. reflexivity.
Qed.

(** A search through the pipeline embeds its one text and writes nothing. *)
Lemma run_request_frame (self : RAGPipeline) (r : SearchRequest) (w : World) :
  let w' := snd (run_request local_encode api_encode distance self r w) in
  knowledge_base w' = knowledge_base w
  /\ collection w' = collection w
  /\ model_logs w' = model_logs w
  /\ embedded w' = (embedded w ++ [[query_text r]])%list.
Proof.
  cbv zeta. unfold run_request, embed, log_embedded, search, bind, modify.
  destruct (encode _ _ _ _) as [v|e]; [|now repeat split].
  unfold ret. cbn [collection].
  destruct (collection_query _ _ _ _) as [results|e]; now repeat split.
Qed.

(** X4. Retrieval runs before the [try]: when no contexts are supplied and
    retrieval raises (the embedding backend fails, or the index refuses the
    query vector), the call raises the same exception instead of falling
    back, whatever the backend would answer, and writes no audit row. *)
Theorem retrieval_failure_propagates :
  forall (self : MessageGenerator) (lead_data : LeadData) (intent : string)
         (w : World) (e : exn),
    fst (retrieve_context_for_message local_encode api_encode distance
           (rag_pipeline self) lead_data intent w) = Raise e ->
    let out := generate_message local_encode api_encode distance messages_create
                 start_time end_time session_ok self lead_data intent None w in
    fst out = Raise e
    /\ fst out <> Return (_generate_fallback_message lead_data intent)
    /\ model_logs (snd out) = model_logs w
    /\ collection (snd out) = collection w
    /\ embedded (snd out)
       = (embedded w ++ [[query_text (generation_request lead_data intent)]])%list.
Proof.
  intros self lead_data intent w e H out. subst out.
  pose proof (run_request_frame (rag_pipeline self) (generation_request lead_data intent) w)
    as F. cbv zeta in F.
  unfold generate_message, bind, contexts_for.
  unfold retrieve_context_for_message in *.
  destruct (run_request _ _ _ _ _ w) as [[contexts|e'] w'];
    cbn [fst snd] in *; [discriminate H|].
  injection H as ->. destruct F as [_ [C [L E]]].
  repeat split; [discriminate | exact L | exact C | exact E].
Qed.

(** X5. Every snippet of a returned message has at most 200 characters, and
    there is one snippet per reported context. *)
Theorem message_snippets_bounded :
  forall (self : MessageGenerator) (lead_data : LeadData) (intent : string)
         (retrieved_contexts : option (list RetrievedContext))
         (w : World) (m : Message.GeneratedMessage),
    fst (generate_message local_encode api_encode distance messages_create start_time
           end_time session_ok self lead_data intent retrieved_contexts w)
    = Return m ->
    length (Message.context_snippets m) = length (Message.context_used m)
    /\ Forall (fun s => (String.length s <= 200)%nat) (Message.context_snippets m).
Proof.
  intros self lead_data intent retrieved_contexts w m H.
  destruct (contexts_for local_encode api_encode distance self lead_data intent
              retrieved_contexts w) as [[contexts|e] w'] eqn:Hc.
  - destruct (generate_message_cases self lead_data intent retrieved_contexts w w'
                contexts Hc) as [E|[response [text [rest [latency_ms [_ [_ E]]]]]]];
      rewrite E in H; injection H as <-.
    + split; [reflexivity | constructor].
    + cbn [generated Message.context_snippets Message.context_used].
      split; [now rewrite !length_map|].
      apply Forall_forall. intros s Hs. apply in_map_iff in Hs as [ctx [<- _]].
      exact (take_length 200 (content ctx)).
  - unfold generate_message, bind in H. rewrite Hc in H. discriminate H.
Qed.

(** X6. Every snippet of a classification has at most 200 characters, there is
    one per retrieved document, and there are at most five. *)
Theorem classification_snippets_bounded :
  forall (self : RAGPipeline) (lead_data : LeadData) (w : World) (c : Classification),
    fst (classify_lead local_encode api_encode distance self lead_data w) = Return c ->
    length (context_snippets c) = length (retrieved_docs c)
    /\ (length (retrieved_docs c) <= 5)%nat
    /\ Forall (fun s => (String.length s <= 200)%nat) (context_snippets c).
Proof.
  intros self lead_data w c. unfold classify_lead, bind.
  destruct (run_request _ _ _ _ _ w) as [[contexts|e] w1] eqn:R; [|discriminate].
  destruct (_classify_with_rules _ _ _) as [[i cf] r]. unfold ret.
  intros H. injection H as <-. cbn [context_snippets retrieved_docs].
  split; [now rewrite !length_map|]. split.
  - rewrite length_map.
    unfold run_request, bind in R.
    destruct (embed _ _ _ _ w) as [[v|e] w2]; [|discriminate].
    assert (S : fst (search distance (vector_store self) v 5 None w2) = Return contexts)
      by (cbn [classification_request n_results filter_metadata] in R; now rewrite R).
    now destruct (search_results distance _ _ _ _ _ _ S).
  - apply Forall_forall. intros s Hs. apply in_map_iff in Hs as [ctx [<- _]].
    exact (take_length 200 (content ctx)).
Qed.

(** X7. A classification embeds one text, the query, and writes nothing. *)
Theorem classification_reads_only :
  forall (self : RAGPipeline) (lead_data : LeadData) (w : World),
    let w' := snd (classify_lead local_encode api_encode distance self lead_data w) in
    knowledge_base w' = knowledge_base w
    /\ collection w' = collection w
    /\ model_logs w' = model_logs w
    /\ embedded w' = (embedded w ++ [[classification_query lead_data]])%list.
Proof.
  intros self lead_data w. cbv zeta.
  pose proof (run_request_frame self (classification_request lead_data) w) as F.
  cbv zeta in F. unfold classify_lead, bind.
  destruct (run_request _ _ _ _ _ w) as [[contexts|e] w1]; cbn [snd] in F.
  - destruct (_classify_with_rules _ _ _) as [[i cf] r]. exact F.
  - exact F.
Qed.

End Paths.

(** X8. The prompt is built from the first three contexts, each cut to 300
    characters: later contexts, longer tails, scores, ids and metadata do
    not reach it. *)
Theorem prompt_uses_top_three :
  forall (template : Template) (lead_data : LeadData) (contexts : list RetrievedContext),
    user_message_for template lead_data contexts
    = user_message_for template lead_data
        (map (fun ctx => mkContext "" (Py.take 300 (content ctx)) 0%float [])
             (firstn 3 contexts)).
Proof.
  intros template lead_data contexts. unfold user_message_for.
  rewrite firstn_map, firstn_firstn, map_map.
  cbn [Nat.min content]. do 2 f_equal.
  apply map_ext. intros ctx. now rewrite take_take.
Qed.

(** X9. An intent other than hot and warm gets what cold gets: the cold prompt
    template, and the cold fallback message. *)
Theorem unknown_intent_is_cold :
  forall (lead_data : LeadData) (intent : string),
    intent <> "hot" -> intent <> "warm" ->
    template_for _load_templates intent = cold_template
    /\ template_for _load_templates intent = template_for _load_templates "cold"
    /\ _generate_fallback_message lead_data intent
       = _generate_fallback_message lead_data "cold".
Proof.
  intros lead_data intent Hh Hw.
  unfold template_for, _generate_fallback_message, fallback_templates, _load_templates,
    Py.lookup_default.
  cbn [Py.lookup].
  destruct (String.eqb_spec "hot" intent) as [E|_]; [congruence|].
  destruct (String.eqb_spec "warm" intent) as [E|_]; [congruence|].
  destruct (String.eqb_spec "cold" intent) as [E|_]; repeat split.
Qed.

(** ** Indexing: what a run writes *)

Lemma to_int_not_nil (z : Z) :
  Z.to_int z <> Decimal.Pos Decimal.Nil /\ Z.to_int z <> Decimal.Neg Decimal.Nil.
Proof.
  split; intros H;
    (assert (E : z = 0%Z) by (rewrite <- (DecimalZ.of_to z), H; reflexivity));
    subst z; vm_compute in H; discriminate H.
Qed.

Lemma str_of_int_inj (a b : Z) : Py.str_of_int a = Py.str_of_int b -> a = b.
Proof.
  unfold Py.str_of_int. intros H. apply DecimalZ.to_int_inj.
  destruct (to_int_not_nil a) as [A1 A2]. destruct (to_int_not_nil b) as [B1 B2].
  pose proof (NilZero.isi (Z.to_int a) A1 A2) as Ha.
  pose proof (NilZero.isi (Z.to_int b) B1 B2) as Hb.
  rewrite H in Ha. rewrite Ha in Hb. now injection Hb.
Qed.

(** X10. Rows with different primary keys get different ids in the vector
    store, and the id of a row is never empty. *)
Theorem vector_ids_are_distinct :
  forall d1 d2 : Models.KnowledgeBase,
    (kb_doc_id d1 = kb_doc_id d2 <-> Models.id d1 = Models.id d2)
    /\ kb_doc_id d1 <> ""
    /\ Py.truthy (Some (kb_doc_id d1)) = true.
Proof.
  intros d1 d2. unfold kb_doc_id. split; [split|split; [discriminate | reflexivity]].
  - intros H. injection H as H. now apply str_of_int_inj.
  - intros ->. reflexivity.
Qed.

Lemma map_fixed {A : Type} (f : A -> A) (l : list A) :
  (forall x, In x l -> f x = x) -> map f l = l.
Proof.
  induction l as [|a l IH]; intros H; [reflexivity|]. cbn [map].
  rewrite (H a (or_introl eq_refl)), IH; [reflexivity|].
  intros x Hx. apply H. now right.
Qed.

Lemma filter_nil_false {A : Type} (f : A -> bool) (l : list A) (x : A) :
  filter f l = [] -> In x l -> f x = false.
Proof.
  intros E Hin. destruct (f x) eqn:F; [|reflexivity].
  assert (H : In x (filter f l)) by (apply filter_In; now split).
  rewrite E in H. contradiction.
Qed.

Lemma collection_add_from (new c c' : list Entry) (e : Entry) :
  collection_add c new = Return c' -> In e c' -> In e c \/ In e new.
Proof.
  revert c. induction new as [|n new IH]; intros c; cbn [collection_add].
  - intros H. injection H as <-. auto.
  - destruct (fits (dimension c) (entry_embedding n)); [|discriminate].
    destruct (has_id c (entry_id n)); intros H Hin.
    + destruct (IH c H Hin); [now left | right; now right].
    + destruct (IH _ H Hin) as [Hc|Hn]; [|right; now right].
      unfold Py.append in Hc. apply in_app_or in Hc as [Hc|[<-|[]]];
        [now left | right; now left].
Qed.

Section IndexRun.

Variable local_encode : string -> string -> result Vec.
Variable api_encode : string -> string -> result Vec.


(** The rows and the audit table after a run that returned. *)
Lemma index_rows (self : RAGPipeline) (force_refresh : bool) (w : World) :
  fst (index_knowledge_base local_encode api_encode self force_refresh w) = Return tt ->
  knowledge_base (snd (index_knowledge_base local_encode api_encode self force_refresh w))
  = map (fun doc =>
           if Models.active doc && needs_indexing force_refresh doc
           then Models.set_embedding_id doc (kb_doc_id doc)
           else doc) (knowledge_base w)
  /\ model_logs (snd (index_knowledge_base local_encode api_encode self force_refresh w))
     = model_logs w.
Proof.
  unfold index_knowledge_base, bind, gets, ret.
  destruct (filter Models.active (knowledge_base w)) as [|d docs] eqn:A.
  - intros _. cbn [snd]. split; [|reflexivity].
    rewrite map_fixed; [reflexivity|]. intros x Hx.
    now rewrite (filter_nil_false _ _ x A Hx).
  - destruct (filter (needs_indexing force_refresh) (d :: docs)) as [|d' docs'] eqn:F.
    + intros _. cbn [snd]. split; [|reflexivity].
      rewrite map_fixed; [reflexivity|]. intros x Hx.
      destruct (Models.active x) eqn:Ax; [|reflexivity]. cbn [andb].
      assert (Hd : In x (d :: docs)) by (rewrite <- A; apply filter_In; now split).
      now rewrite (filter_nil_false _ _ x F Hd).
    + unfold embed_batch, bind, log_embedded, modify.
      destruct (encode_all _ _ _ _) as [vs|x]; [|discriminate].
      unfold ret, add_documents. cbn [collection knowledge_base model_logs embedded].
      destruct (collection_add _ _) as [c'|x]; [|discriminate].
      intros _. split; reflexivity.
Qed.

(** X12. A run that returns has given the reference kb_<id> to exactly the
    active rows that were to be indexed (all of them when forced, those
    without a reference otherwise); every other row, and every other
    column, is as before. *)
Theorem index_sets_references :
  forall (self : RAGPipeline) (force_refresh : bool) (w : World),
    fst (index_knowledge_base local_encode api_encode self force_refresh w) = Return tt ->
    let w' := snd (index_knowledge_base local_encode api_encode self force_refresh w) in
    knowledge_base w'
    = map (fun doc =>
             if Models.active doc && needs_indexing force_refresh doc
             then Models.set_embedding_id doc (kb_doc_id doc)
             else doc) (knowledge_base w)
    /\ length (knowledge_base w') = length (knowledge_base w)
    /\ (forall doc, In doc (knowledge_base w) -> Models.active doc = false ->
                    In doc (knowledge_base w'))
    /\ model_logs w' = model_logs w.
Proof.
  intros self force_refresh w H. cbv zeta.
  destruct (index_rows self force_refresh w H) as [E L]. rewrite E.
  split; [reflexivity|]. split; [apply length_map|]. split; [|exact L].
  intros doc Hin Ha. apply in_map_iff. exists doc. now rewrite Ha.
Qed.

(** X13. Whatever a run leaves in the collection was there before, or is the
    vector of a row that was active when the run read the table: its id,
    text and metadata are that row's. *)
Theorem index_adds_active_rows_only :
  forall (self : RAGPipeline) (force_refresh : bool) (w : World) (e : Entry),
    In e (collection (snd (index_knowledge_base local_encode api_encode self
                             force_refresh w))) ->
    In e (collection w)
    \/ exists doc,
         In doc (knowledge_base w) /\ Models.active doc = true
         /\ needs_indexing force_refresh doc = true
         /\ entry_id e = kb_doc_id doc
         /\ entry_document e = Models.content doc
         /\ Py.get (entry_metadata e) "title" = Some (Py.VStr (Models.title doc))
         /\ Py.get (entry_metadata e) "doc_type" = Some (Py.VStr (Models.doc_type doc)).
Proof.
  intros self force_refresh w e.
  unfold index_knowledge_base, bind, gets, ret.
  destruct (filter Models.active (knowledge_base w)) as [|d docs] eqn:A; [intros H; now left|].
  destruct (filter (needs_indexing force_refresh) (d :: docs)) as [|d' docs'] eqn:F;
    [intros H; now left|].
  unfold embed_batch, bind, log_embedded, modify.
  destruct (encode_all _ _ _ _) as [vs|x]; [|intros H; now left].
  unfold ret, add_documents. cbn [collection knowledge_base model_logs embedded].
  destruct (collection_add _ _) as [c'|x] eqn:C; [|intros H; now left].
  unfold commit_embedding_ids, modify. cbn [snd collection]. intros Hin.
  destruct (collection_add_from _ _ _ e C Hin) as [H|H]; [now left|]. right.
  apply in_map_iff in H as [[vd v] [<- Hc]]. apply in_combine_l in Hc.
  apply in_map_iff in Hc as [doc [<- Hd]]. rewrite <- F in Hd.
  apply filter_In in Hd as [Hd Hn]. rewrite <- A in Hd. apply filter_In in Hd as [Hd Ha].
  exists doc. repeat split; assumption.
Qed.

End IndexRun.

(** ** Search through the pipeline *)

Lemma value_eqb_eq (v u : Py.value) : Py.value_eqb v u = true -> v = u.
Proof.
  destruct v, u; cbn [Py.value_eqb]; try discriminate; intros H.
  - apply String.eqb_eq in H. now subst.
  - apply Z.eqb_eq in H. now subst.
Qed.

Section Retrieval.

Variable local_encode : string -> string -> result Vec.
Variable api_encode : string -> string -> result Vec.
Variable distance : Vec -> Vec -> float.

(** X14. The generation pass for a hot lead returns at most three contexts, all
    of them tagged doc_type = faq; for any other intent it returns at most
    three contexts of the collection. *)
Theorem generation_pass_results :
  forall (self : RAGPipeline) (lead_data : LeadData) (intent : string) (w : World)
         (contexts : list RetrievedContext),
    fst (retrieve_context_for_message local_encode api_encode distance self lead_data
           intent w)
    = Return contexts ->
    (length contexts <= 3)%nat
    /\ (forall ctx, In ctx contexts -> In (doc_id ctx) (map entry_id (collection w)))
    /\ (intent = "hot" ->
        forall ctx, In ctx contexts ->
                    Py.get (metadata ctx) "doc_type" = Some (Py.VStr "faq")).
Proof.
  intros self lead_data intent w contexts.
  unfold retrieve_context_for_message, run_request, bind.
  destruct (embed _ _ _ _ w) as [[v|e] w1] eqn:E; [|discriminate].
  intros R.
  assert (C : collection w1 = collection w).
  { unfold embed, bind, log_embedded, modify in E.
    destruct (encode _ _ _ _); [|discriminate]. unfold ret in E.
    injection E as _ <-. reflexivity. }
  assert (S : fst (search distance (vector_store self) v
                     (n_results (generation_request lead_data intent))
                     (filter_metadata (generation_request lead_data intent)) w1)
              = Return contexts) by exact R.
  destruct (search_results distance _ _ _ _ _ _ S) as [L A].
  split; [exact L|]. split.
  - intros ctx Hin. destruct (A ctx Hin) as [e [He [_ [Hid _]]]].
    rewrite Hid, <- C. now apply in_map.
  - intros -> ctx Hin. destruct (A ctx Hin) as [e [_ [Hm [_ [_ Hmd]]]]].
    cbn [generation_request filter_metadata String.eqb Ascii.eqb Bool.eqb matches forallb
         fst snd] in Hm.
    rewrite Hmd. destruct (Py.get (entry_metadata e) "doc_type") as [v'|]; [|discriminate].
    rewrite andb_true_r in Hm. now rewrite (value_eqb_eq _ _ Hm).
Qed.

End Retrieval.

(** ** The sample knowledge base and start-up *)

Section StartupRuns.

Variable next_id : list Models.KnowledgeBase -> Z.
Variable load_model : string -> result unit.
Variable create_client : result unit.
Variable open_collection : string -> result unit.
Variable local_encode : string -> string -> result Vec.
Variable api_encode : string -> string -> result Vec.

Lemma add_samples_rows (docs : list (string * string * string))
    (rows : list Models.KnowledgeBase) :
  exists added,
    add_samples next_id docs rows = (rows ++ added)%list
    /\ map (fun d => (Models.title d, Models.content d, Models.doc_type d)) added = docs
    /\ Forall (fun d => Models.active d = true /\ Models.embedding_id d = None
                        /\ Models.source_url d = None /\ Models.priority d = 0%Z) added.
Proof.
  revert rows. induction docs as [|[[t c] ty] docs IH]; intros rows.
  - exists []. split; [now rewrite app_nil_r|]. split; [reflexivity | constructor].
  - cbn [add_samples]. destruct (IH (Py.append rows
        (Models.mkKnowledgeBase (next_id rows) t c ty None None 0 true)))
      as [added [E [M F]]].
    exists (Models.mkKnowledgeBase (next_id rows) t c ty None None 0 true :: added).
    split; [|split].
    + rewrite E. unfold Py.append. now rewrite <- app_assoc.
    + cbn [map]. now rewrite M.
    + constructor; [repeat split | exact F].
Qed.


Lemma initialize_rows (w : World) :
  initialize_sample_knowledge_base next_id w
  = (Return tt, snd (initialize_sample_knowledge_base next_id w))
  /\ knowledge_base (snd (initialize_sample_knowledge_base next_id w)) <> []
  /\ (knowledge_base w <> [] -> initialize_sample_knowledge_base next_id w = (Return tt, w)).
Proof.
  unfold initialize_sample_knowledge_base, bind, gets, ret, modify. cbv beta.
  destruct (knowledge_base w) as [|d rows] eqn:K.
  - cbn [length Nat.ltb Nat.leb fst snd knowledge_base]. rewrite ?K.
    split; [reflexivity|]. split; [|congruence].
    destruct (add_samples_rows sample_docs []) as [added [E [M _]]].
    cbn [app] in E. rewrite E. destruct added; [discriminate M | discriminate].
  - cbn [length Nat.ltb Nat.leb fst snd]. rewrite K.
    split; [reflexivity|]. split; [discriminate | reflexivity].
Qed.

Lemma startup_event_steps (w : World) :
  startup_event next_id load_model create_client open_collection local_encode api_encode w
  = match pipeline_setup load_model create_client open_collection "all-MiniLM-L6-v2" with
    | Return rag =>
        index_knowledge_base local_encode api_encode rag false
          (snd (initialize_sample_knowledge_base next_id w))
    | Raise e => (Raise e, snd (initialize_sample_knowledge_base next_id w))
    end.
Proof.
  unfold startup_event, bind. destruct (initialize_rows w) as [E _]. rewrite E.
  rewrite RAGPipeline_init_outcome.
  now destruct (pipeline_setup load_model create_client open_collection "all-MiniLM-L6-v2").
Qed.

(** X16. A start-up that returned has nothing left to do: the next start-up
    adds no sample, embeds no text and returns in the same world. *)
Theorem restart_changes_nothing :
  forall w : World,
    let start := startup_event next_id load_model create_client open_collection
                   local_encode api_encode in
    fst (start w) = Return tt ->
    start (snd (start w)) = (Return tt, snd (start w)).
Proof.
  intros w start. subst start. rewrite !startup_event_steps.
  destruct (initialize_rows w) as [_ [N _]].
  set (w1 := snd (initialize_sample_knowledge_base next_id w)) in *.
  destruct (pipeline_setup load_model create_client open_collection "all-MiniLM-L6-v2")
    as [rag|e]; [|discriminate].
  intros H.
  set (w2 := snd (index_knowledge_base local_encode api_encode rag false w1)).
  assert (N2 : knowledge_base w2 <> []).
  { destruct (index_rows local_encode api_encode _ false w1 H) as [K _].
    subst w2. rewrite K. destruct (knowledge_base w1); [contradiction | discriminate]. }
  destruct (initialize_rows w2) as [_ [_ I]]. rewrite (I N2). cbn [snd].
  apply index_already_indexed. intros doc Hin Ha.
  now apply (index_leaves_references local_encode api_encode _ w1 H doc Hin Ha).
Qed.

End StartupRuns.

(** ** The confidence of a generated message, as a float *)

Lemma binary_round_aux_not_negative (mx ex : Z) (lx : location) :
  not_negative (binary_round_aux prec emax false mx ex lx).
Proof.
  unfold binary_round_aux.
  destruct (shr_fexp prec emax mx ex lx) as [mrs' e'].
  destruct (shr_fexp prec emax _ e' loc_Exact) as [mrs'' e''].
  destruct (shr_m mrs''); cbn [not_negative]; auto.
  destruct (Z.leb e'' (emax - prec)); reflexivity.
Qed.

Lemma float_of_Z_not_negative (n : Z) :
  (0 <= n)%Z -> not_negative (Prim2SF (Py.float_of_Z n)).
Proof.
  intros H. destruct n as [|p|p]; [exact I | | lia].
  unfold Py.float_of_Z. rewrite of_uint63_spec. unfold binary_normalize.
  destruct (Uint63Axioms.to_Z (Uint63Axioms.of_Z (Z.pos p))) as [|q|q] eqn:E.
  - exact I.
  - unfold binary_round. destruct (shl_align _ _ _) as [mz ez].
    apply binary_round_aux_not_negative.
  - pose proof (Uint63.to_Z_bounded (Uint63Axioms.of_Z (Z.pos p))) as B.
    rewrite E in B. lia.
Qed.

Lemma div_not_negative (a b : float) (mb : positive) (eb : Z) :
  not_negative (Prim2SF a) -> Prim2SF b = S754_finite false mb eb ->
  not_negative (Prim2SF (a / b)).
Proof.
  intros Ha Hb. rewrite div_spec, Hb. unfold SF64div, SFdiv.
  destruct (Prim2SF a) as [s|s| |s m e]; cbn [not_negative] in *; subst; cbn [xorb]; auto.
  destruct (SFdiv_core_binary _ _ _ _ _ _) as [[mz ez] lz].
  apply binary_round_aux_not_negative.
Qed.

Lemma hundredths_not_negative (n : Z) :
  (0 <= n)%Z -> not_negative (Prim2SF (Py.float_of_Z n / 100)).
Proof.
  intros H. apply div_not_negative with (mb := 7036874417766400%positive) (eb := (-46)%Z).
  - now apply float_of_Z_not_negative.
  - reflexivity.
Qed.

Lemma above_opp_not_negative (y : float) :
  not_negative (Prim2SF y) -> (0.95 <? - y)%float = false.
Proof.
  intros H. rewrite ltb_spec, opp_spec.
  change (Prim2SF 0.95) with (S754_finite false 8556839292003942 (-53)).
  destruct (Prim2SF y) as [s|s| |s m e]; cbn [not_negative] in H; subst; reflexivity.
Qed.

Lemma below_zero_not_negative (y : float) :
  not_negative (Prim2SF y) -> (y <? 0)%float = false.
Proof.
  intros H. rewrite ltb_spec.
  change (Prim2SF 0) with (S754_zero false).
  destruct (Prim2SF y) as [s|s| |s m e]; cbn [not_negative] in H; subst; reflexivity.
Qed.

Lemma digits2_pos_bound (m : positive) : (Z.pos m < 2 ^ Z.pos (digits2_pos m))%Z.
Proof.
  induction m as [m IH|m IH|]; cbn [digits2_pos]; [| |reflexivity];
    rewrite Pos2Z.inj_succ, Z.pow_succ_r by lia; lia.
Qed.

Lemma valid_mantissa (s : bool) (m : positive) (e : Z) :
  valid_binary (S754_finite s m e) = true -> (Z.pos m < 2 ^ 53)%Z.
Proof.
  unfold SpecFloat.valid_binary, bounded, canonical_mantissa, fexp, emin, prec, emax.
  intros H. apply andb_true_iff in H as [H _]. apply Z.eqb_eq in H.
  assert (D : (Z.pos (digits2_pos m) <= 53)%Z) by lia.
  pose proof (digits2_pos_bound m) as B.
  pose proof (Z.pow_le_mono_r 2 (Z.pos (digits2_pos m)) 53) as P. lia.
Qed.

(** The hundredths [round2] rounds to lie between the quotient and its
    successor. *)
Lemma hundredths_bounds (t d : Z) :
  let q := (t / d)%Z in
  let r := (t mod d)%Z in
  let n := if (2 * r <? d)%Z then q
           else if (d <? 2 * r)%Z then (q + 1)%Z
           else if Z.even q then q else (q + 1)%Z in
  (q <= n <= q + 1)%Z.
Proof.
  cbv zeta. destruct (2 * (t mod d) <? d)%Z; [lia|].
  destruct (d <? 2 * (t mod d))%Z; [lia|]. destruct (Z.even (t / d)); lia.
Qed.

Lemma small_hundredths (n : Z) :
  (0 <= n <= 95)%Z -> (0.95 <? Py.float_of_Z n / 100)%float = false.
Proof.
  intros H.
  assert (T : forallb (fun k => negb (0.95 <? Py.float_of_Z (Z.of_nat k) / 100)%float)
                      (seq 0 96) = true) by (vm_compute; reflexivity).
  rewrite forallb_forall in T. specialize (T (Z.to_nat n)).
  rewrite Z2Nat.id in T by lia. apply negb_true_iff, T, in_seq. lia.
Qed.

Lemma mantissa_below_cap (z : Z) :
  (z <= 8556839292003942)%Z -> (z * 100 < 9007199254740992 * 95)%Z.
Proof. lia. Qed.

Lemma small_exponent_below_cap (z p : Z) :
  (0 < z)%Z -> (z < 9007199254740992)%Z -> (18014398509481984 <= p)%Z ->
  (z * 100 < p * 95)%Z.
Proof. lia. Qed.

(** A float that is not above 0.95 has fewer than 95 hundredths. *)
Lemma hundredths_below_cap (x : float) (m : positive) (e : Z) :
  Prim2SF x = S754_finite false m e -> (e < 0)%Z -> (0.95 <? x)%float = false ->
  (Z.pos m * 100 / 2 ^ (- e) < 95)%Z.
Proof.
  intros E He H.
  pose proof (Prim2SF_valid x) as V. rewrite E in V. apply valid_mantissa in V.
  change (2 ^ 53)%Z with 9007199254740992%Z in V.
  rewrite ltb_spec, E in H.
  change (Prim2SF 0.95) with (S754_finite false 8556839292003942 (-53)) in H.
  unfold SFltb, SFcompare in H.
  apply Z.div_lt_upper_bound; [apply Z.pow_pos_nonneg; lia|].
  destruct (Z.compare_spec (-53) e) as [Ee|Ee|Ee]; [| discriminate H |].
  - subst e. change (2 ^ (- -53))%Z with 9007199254740992%Z.
    change (PosDef.Pos.compare_cont Eq 8556839292003942 m)
      with (Pos.compare 8556839292003942 m) in H.
    apply mantissa_below_cap.
    destruct (Pos.compare_spec 8556839292003942 m) as [Em|Em|Em];
      [subst m; apply Z.le_refl | discriminate H |].
    apply Z.lt_le_incl. exact Em.
  - apply small_exponent_below_cap; [reflexivity | exact V |].
    change 18014398509481984%Z with (2 ^ 54)%Z. apply Z.pow_le_mono_r; lia.
Qed.

(** [round2] does not lift a float over 0.95. *)
Lemma round2_capped (x : float) :
  (0.95 <? x)%float = false -> (0.95 <? Py.round2 x)%float = false.
Proof.
  intros H. unfold Py.round2.
  destruct (Prim2SF x) as [s|s| |s m e] eqn:E; try exact H.
  destruct (0 <=? e)%Z eqn:He; [exact H|]. apply Z.leb_gt in He.
  pose proof (hundredths_bounds (Z.pos m * 100) (2 ^ (- e))) as B. cbv zeta in B.
  set (n := if (2 * ((Z.pos m * 100) mod 2 ^ (- e)) <? 2 ^ (- e))%Z then _ else _) in *.
  destruct (2 ^ 53 <=? n)%Z; [exact H|].
  assert (Q : (0 <= Z.pos m * 100 / 2 ^ (- e))%Z).
  { apply Z.div_pos; [lia | apply Z.pow_pos_nonneg; lia]. }
  clearbody n.
  destruct s.
  - apply above_opp_not_negative, hundredths_not_negative. lia.
  - pose proof (hundredths_below_cap x m e E He H) as U.
    apply small_hundredths. lia.
Qed.

(** X17. [generate_message] reports a confidence of at most 0.95, whatever the
    scores of the contexts and whatever the intent. *)
Theorem confidence_is_capped (contexts : list RetrievedContext) (intent : string) :
  (0.95 <? _calculate_confidence contexts intent)%float = false.
Proof.
  unfold _calculate_confidence. destruct contexts as [|c cs]; [reflexivity|].
  cbv zeta. set (x := (_ * _)%float). unfold Py.min.
  destruct (0.95 <? x)%float eqn:A.
  - vm_compute. reflexivity.
  - now apply round2_capped.
Qed.

(** [round2] does not take a float below zero. *)
Lemma round2_not_below_zero (x : float) :
  (x <? 0)%float = false -> (Py.round2 x <? 0)%float = false.
Proof.
  intros H. unfold Py.round2.
  destruct (Prim2SF x) as [s|s| |s m e] eqn:E; try exact H.
  destruct (0 <=? e)%Z eqn:He; [exact H|]. apply Z.leb_gt in He.
  pose proof (hundredths_bounds (Z.pos m * 100) (2 ^ (- e))) as B. cbv zeta in B.
  set (n := if (2 * ((Z.pos m * 100) mod 2 ^ (- e)) <? 2 ^ (- e))%Z then _ else _) in *.
  destruct (2 ^ 53 <=? n)%Z; [exact H|].
  assert (Q : (0 <= Z.pos m * 100 / 2 ^ (- e))%Z).
  { apply Z.div_pos; [lia | apply Z.pow_pos_nonneg; lia]. }
  clearbody n.
  destruct s.
  - rewrite ltb_spec, E in H. discriminate H.
  - apply below_zero_not_negative, hundredths_not_negative. lia.
Qed.

(** X18. The confidence is below zero only when the weighted average of the
    scores is: capping and rounding never take it below zero. *)
Theorem confidence_sign :
  forall (c : RetrievedContext) (cs : list RetrievedContext) (intent : string),
    (Py.sum (map score (c :: cs)) / Py.float_of_Z (Z.of_nat (length (c :: cs)))
     * Py.lookup_default intent_weights intent 0.6 <? 0)%float = false ->
    (_calculate_confidence (c :: cs) intent <? 0)%float = false.
Proof.
  intros c cs intent H. unfold _calculate_confidence. cbv zeta.
  set (x := (_ * _)%float) in *. unfold Py.min.
  destruct (0.95 <? x)%float.
  - vm_compute. reflexivity.
  - now apply round2_not_below_zero.
Qed.

Lemma confidence_sign_witness :
  (Py.sum (map score [pricing_context]) / Py.float_of_Z (Z.of_nat (length [pricing_context]))
   * Py.lookup_default intent_weights "warm" 0.6 <? 0)%float = false
  /\ (_calculate_confidence [pricing_context] "warm" <? 0)%float = false.
Proof.
  split; [reflexivity|].
  exact (confidence_sign pricing_context [] "warm" eq_refl).
Defined.

(** ** Instances *)

Lemma generation_always_returns_witness :
  contexts_for toy_local toy_api cosine_distance toy_generator sarah "hot"
    (Some [pricing_context]) indexed_world
  = (Return [pricing_context], indexed_world)
  /\ exists m w'',
       generate_message toy_local toy_api cosine_distance answering_nothing
         1.5%float 2.75%float true toy_generator sarah "hot"
         (Some [pricing_context]) indexed_world
       = (Return m, w'')
       /\ Message.subject m <> "".
Proof.
  split; [reflexivity|].
  destruct (generation_always_returns toy_local toy_api cosine_distance answering_nothing
              1.5%float 2.75%float true toy_generator sarah "hot"
              (Some [pricing_context]) indexed_world indexed_world [pricing_context]
              eq_refl) as [m [w'' [E [_ [S _]]]]].
  exists m, w''. split; [exact E | exact S].
Defined.

Lemma retrieval_failure_propagates_witness :
  fst (retrieve_context_for_message toy_local toy_api cosine_distance
         (rag_pipeline api_generator) sarah "hot" indexed_world)
  = Raise InvalidDimension
  /\ fst (generate_message toy_local toy_api cosine_distance answering
            1.5%float 2.75%float true api_generator sarah "hot" None indexed_world)
     = Raise InvalidDimension.
Proof.
  assert (H : fst (retrieve_context_for_message toy_local toy_api cosine_distance
                     (rag_pipeline api_generator) sarah "hot" indexed_world)
              = Raise InvalidDimension) by reflexivity.
  split; [exact H|].
  pose proof (retrieval_failure_propagates toy_local toy_api cosine_distance answering
                1.5%float 2.75%float true api_generator sarah "hot" indexed_world
                InvalidDimension H) as T.
  cbv zeta in T. apply T.
Defined.

Lemma message_snippets_bounded_witness :
  fst (generate_message toy_local toy_api cosine_distance answering 1.5%float 2.75%float
         true toy_generator sarah "hot" (Some [pricing_context]) indexed_world)
  = Return (Message.mkGeneratedMessage "Your BizPilot demo"
              "Hi Sarah,
Happy to show you BizPilot this week."
              "email" 0.8%float "high_intent_followup" ["kb_1"]
              ["Our Starter plan is $49/month and includes: up to 100 leads per month."]
              "claude-sonnet-4-5-20250929" 1250 500)
  /\ Forall (fun s => (String.length s <= 200)%nat)
       ["Our Starter plan is $49/month and includes: up to 100 leads per month."].
Proof.
  assert (H : fst (generate_message toy_local toy_api cosine_distance answering
                     1.5%float 2.75%float true toy_generator sarah "hot"
                     (Some [pricing_context]) indexed_world)
              = Return (Message.mkGeneratedMessage "Your BizPilot demo"
                          "Hi Sarah,
Happy to show you BizPilot this week."
                          "email" 0.8%float "high_intent_followup" ["kb_1"]
                          ["Our Starter plan is $49/month and includes: up to 100 leads per month."]
                          "claude-sonnet-4-5-20250929" 1250 500))
    by (vm_compute; reflexivity).
  split; [exact H|].
  exact (proj2 (message_snippets_bounded toy_local toy_api cosine_distance answering
                  1.5%float 2.75%float true toy_generator sarah "hot"
                  (Some [pricing_context]) indexed_world _ H)).
Defined.

Lemma classification_snippets_bounded_witness :
  fst (classify_lead toy_local toy_api cosine_distance local_pipeline sarah indexed_world)
  = Return (mkClassification "hot" 0.85%float "High-intent keywords detected: ['demo']"
              ["kb_1"]
              ["Our Starter plan is $49/month and includes: up to 100 leads per month."])
  /\ (length ["kb_1"] <= 5)%nat.
Proof.
  assert (H : fst (classify_lead toy_local toy_api cosine_distance local_pipeline sarah
                     indexed_world)
              = Return (mkClassification "hot" 0.85%float
                          "High-intent keywords detected: ['demo']" ["kb_1"]
                          ["Our Starter plan is $49/month and includes: up to 100 leads per month."]))
    by (vm_compute; reflexivity).
  split; [exact H|].
  exact (proj1 (proj2 (classification_snippets_bounded toy_local toy_api cosine_distance
                         local_pipeline sarah indexed_world _ H))).
Defined.

Lemma unknown_intent_is_cold_witness :
  "unqualified" <> "hot" /\ "unqualified" <> "warm"
  /\ template_for _load_templates "unqualified" = cold_template.
Proof.
  assert (Hh : "unqualified" <> "hot") by discriminate.
  assert (Hw : "unqualified" <> "warm") by discriminate.
  split; [exact Hh|]. split; [exact Hw|].
  exact (proj1 (unknown_intent_is_cold sarah "unqualified" Hh Hw)).
Defined.


Lemma index_sets_references_witness :
  fst (index_knowledge_base toy_local toy_api local_pipeline false fresh_world) = Return tt
  /\ length (knowledge_base indexed_world) = length (knowledge_base fresh_world).
Proof.
  assert (H : fst (index_knowledge_base toy_local toy_api local_pipeline false fresh_world)
              = Return tt) by reflexivity.
  split; [exact H|].
  pose proof (index_sets_references toy_local toy_api local_pipeline false fresh_world H)
    as T.
  cbv zeta in T. apply T.
Defined.

Lemma index_adds_active_rows_only_witness :
  exists e,
    In e (collection indexed_world)
    /\ (In e (collection fresh_world)
        \/ exists doc,
             In doc (knowledge_base fresh_world) /\ Models.active doc = true
             /\ needs_indexing false doc = true
             /\ entry_id e = kb_doc_id doc
             /\ entry_document e = Models.content doc
             /\ Py.get (entry_metadata e) "title" = Some (Py.VStr (Models.title doc))
             /\ Py.get (entry_metadata e) "doc_type"
                = Some (Py.VStr (Models.doc_type doc))).
Proof.
  exists (hd (mkEntry "" [] "" []) (collection indexed_world)).
  assert (H : In (hd (mkEntry "" [] "" []) (collection indexed_world))
                 (collection indexed_world)) by (left; reflexivity).
  split; [exact H|].
  exact (index_adds_active_rows_only toy_local toy_api local_pipeline false fresh_world
           _ H).
Defined.

Lemma generation_pass_results_witness :
  fst (retrieve_context_for_message toy_local toy_api cosine_distance local_pipeline
         sarah "hot" indexed_world)
  = Return retrieved_for_sarah
  /\ (length retrieved_for_sarah <= 3)%nat.
Proof.
  assert (H : fst (retrieve_context_for_message toy_local toy_api cosine_distance
                     local_pipeline sarah "hot" indexed_world)
              = Return retrieved_for_sarah) by (vm_compute; reflexivity).
  split; [exact H|].
  exact (proj1 (generation_pass_results toy_local toy_api cosine_distance local_pipeline
                  sarah "hot" indexed_world retrieved_for_sarah H)).
Defined.

Lemma restart_changes_nothing_witness :
  fst (startup_event serial_id toy_load key_set store_opens toy_local toy_api empty_world)
  = Return tt
  /\ startup_event serial_id toy_load key_set store_opens toy_local toy_api
       (snd (startup_event serial_id toy_load key_set store_opens toy_local toy_api
               empty_world))
     = (Return tt,
        snd (startup_event serial_id toy_load key_set store_opens toy_local toy_api
               empty_world)).
Proof.
  assert (H : fst (startup_event serial_id toy_load key_set store_opens toy_local toy_api
                     empty_world) = Return tt) by (vm_compute; reflexivity).
  split; [exact H|].
  pose proof (restart_changes_nothing serial_id toy_load key_set store_opens toy_local
                toy_api empty_world) as T.
  cbv zeta in T. exact (T H).
Defined.

Lemma delete_then_search_witness :
  exists contexts,
    fst (search cosine_distance (vector_store local_pipeline) [1.0%float; 70.0%float] 5 None
           (snd (delete_document (vector_store local_pipeline) "kb_1" two_rows_world)))
    = Return contexts
    /\ map doc_id contexts = ["kb_2"]
    /\ ~ In "kb_1" (map doc_id contexts).
Proof.
  eexists. split; [vm_compute; reflexivity|]. split; [reflexivity|].
  apply (delete_then_search cosine_distance (vector_store local_pipeline) "kb_1"
           [1.0%float; 70.0%float] 5 None two_rows_world).
  vm_compute. reflexivity.
Defined.

Lemma index_unforced_twice_witness :
  fst (index_knowledge_base toy_local toy_api local_pipeline false fresh_world) = Return tt
  /\ index_knowledge_base toy_local toy_api local_pipeline false indexed_world
     = (Return tt, indexed_world).
Proof.
  assert (H : fst (index_knowledge_base toy_local toy_api local_pipeline false fresh_world)
              = Return tt) by reflexivity.
  split; [exact H|].
  exact (index_unforced_twice toy_local toy_api local_pipeline fresh_world H).
Defined.

Lemma fallback_is_not_logged_witness :
  contexts_for toy_local toy_api cosine_distance toy_generator sarah "hot"
    (Some [pricing_context]) indexed_world
  = (Return [pricing_context], indexed_world)
  /\ unusable (backend_call timing_out toy_generator sarah "hot" [pricing_context])
  /\ model_logs (snd (generate_message toy_local toy_api cosine_distance timing_out
                        1.5%float 2.75%float true toy_generator sarah "hot"
                        (Some [pricing_context]) indexed_world))
     = model_logs indexed_world.
Proof.
  split; [reflexivity|]. split; [exact I|].
  exact (fallback_is_not_logged toy_local toy_api cosine_distance timing_out
           1.5%float 2.75%float true toy_generator sarah "hot" (Some [pricing_context])
           indexed_world indexed_world [pricing_context] eq_refl I).
Defined.
